(** * cfupdater: the Cloudflare dynamic-DNS updater

    A shallow embedding of [src/cfupdater/cfdns.py] (the DNS client) and
    [src/cfupdater/cfupdater.py] (the update workflow and its scheduler),
    and the properties of the specification proved or refuted on it.

    The program talks to three outside parties: the HTTP session, the
    system resolver and the credential vault.  Their answers are inputs of
    the model (a [world]); what the program does to them is recorded as a
    trace of [event]s, so that "no upsert call is issued" is a statement
    about the trace. *)

From Stdlib Require Import String List ZArith Bool Lia.
Import ListNotations.
Open Scope string_scope.
Open Scope list_scope.
Open Scope Z_scope.
Set Warnings "-register-all".

(** ** Python values and exceptions *)

Module Py.

(** The values [response.json()] can produce.  A dict is the list of its
    items (keys are distinct in a Python dict; [get] finds the binding of
    the key).  JSON numbers are integers here. *)
Inductive pyval : Type :=
| PNone
| PBool (b : bool)
| PInt (n : Z)
| PStr (s : string)
| PList (l : list pyval)
| PDict (items : list (string * pyval)).

(** The exception classes that occur; all of them derive from [Exception].
    [gaierror] is [socket.gaierror], [RequestException] stands for what the
    [requests] session raises (connection errors, timeouts), and
    [JSONDecodeError] for a body that is not JSON. *)
Inductive exn : Type :=
| AttributeError
| TypeError
| IndexError
| KeyError
| JSONDecodeError
| RequestException
| OSError
| gaierror
| UnicodeError.

(** [isinstance(e, socket.gaierror)] *)
Definition is_gaierror (e : exn) : bool :=
  match e with gaierror => true | _ => false end.

(** The outcome of evaluating a Python expression. *)
Inductive res (A : Type) : Type :=
| Ok (a : A)
| Raise (e : exn).
Arguments Ok {A} a.
Arguments Raise {A} e.

(** [bool(v)] *)
Definition truthy (v : pyval) : bool :=
  match v with
  | PNone => false
  | PBool b => b
  | PInt n => negb (n =? 0)
  | PStr s => negb (s =? "")%string
  | PList l => match l with [] => false | _ => true end
  | PDict items => match items with [] => false | _ => true end
  end.

Fixpoint dict_get (items : list (string * pyval)) (key : string) (default : pyval)
  : pyval :=
  match items with
  | [] => default
  | (k, v) :: rest => if (k =? key)%string then v else dict_get rest key default
  end.

(** [v.get(key, default)]: only a dict has a [get]. *)
Definition py_get (v : pyval) (key : string) (default : pyval) : res pyval :=
  match v with
  | PDict items => Ok (dict_get items key default)
  | _ => Raise AttributeError
  end.

(** [v == s] for a str [s]. *)
Definition py_eq_str (v : pyval) (s : string) : bool :=
  match v with
  | PStr t => (t =? s)%string
  | _ => false
  end.

(** The elements [for x in v] goes through: the items of a list, the keys
    of a dict, the characters of a str; other values are not iterable. *)
Definition py_iter (v : pyval) : res (list pyval) :=
  match v with
  | PList l => Ok l
  | PDict items => Ok (map (fun kv => PStr (fst kv)) items)
  | PStr s => Ok (map (fun c => PStr (String c "")) (list_ascii_of_string s))
  | _ => Raise TypeError
  end.

(** [v[0]] *)
Definition py_index0 (v : pyval) : res pyval :=
  match v with
  | PList [] => Raise IndexError
  | PList (x :: _) => Ok x
  | PStr EmptyString => Raise IndexError
  | PStr (String c _) => Ok (PStr (String c ""))
  | PDict _ => Raise KeyError
  | _ => Raise TypeError
  end.

Definition is_dict (v : pyval) : bool :=
  match v with PDict _ => true | _ => false end.

End Py.
Import Py.

(** ** Requests, log records and traces *)

(** A formatted string, kept as the pieces of its f-string: literal text,
    interpolated values, the text of an exception, the current time. *)
Inductive piece : Type :=
| Lit (s : string)
| Val (v : pyval)
| ExcStr (e : exn)
| Now.

Definition fstring : Type := list piece.

(** The text of a formatted string all of whose arguments are str (there
    [str()] is the identity). *)
Fixpoint fstr_text (f : fstring) : option string :=
  match f with
  | [] => Some ""
  | Lit s :: rest => option_map (append s) (fstr_text rest)
  | Val (PStr s) :: rest => option_map (append s) (fstr_text rest)
  | _ :: _ => None
  end.

Inductive http_method : Type := GET | PUT | POST.

Record request : Type := mk_request {
  meth : http_method;
  url : fstring;
  headers : list (string * string);
  params : list (string * string);
  json_data : option pyval;
  timeout : Z
}.

Record response : Type := mk_response {
  status_code : Z;
  json : res pyval
}.

Inductive level : Type := INFO | WARNING | ERROR | FATAL.

(** What the program does to the outside, in order: the session of a
    cycle is opened and closed, a request is sent on it, the propagation
    check sleeps ([time.sleep]) and resolves the record name, the scheduler
    waits until an event entered with the delay [seconds] is due, a record
    is logged.  Time itself is not modelled. *)
Inductive event : Type :=
| SessionOpen
| SessionClose
| Request (r : request)
| Sleep (seconds : Z)
| GetHostByName (host : string)
| Delay (seconds : Z)
| Log (l : level) (msg : fstring).

(** The outside world of one workflow cycle: what the session answers to a
    request (a response, or an exception) and what the resolver answers. *)
Record world : Type := mk_world {
  session_request : request -> res response;
  gethostbyname : string -> res string
}.

(** ** Computations: a trace and a result or an exception *)

Definition M (A : Type) : Type := (list event * res A)%type.

Definition ret {A} (a : A) : M A := ([], Ok a).

Definition bind {A B} (m : M A) (f : A -> M B) : M B :=
  match m with
  | (t, Ok a) => let (t', r) := f a in (t ++ t', r)
  | (t, Raise e) => (t, Raise e)
  end.

Definition lift {A} (r : res A) : M A := ([], r).

Definition emit (e : event) : M unit := ([e], Ok tt).

(** [try: body  except Exception as e: handler e] *)
Definition try_except {A} (body : M A) (handler : exn -> M A) : M A :=
  match body with
  | (t, Ok a) => (t, Ok a)
  | (t, Raise e) => let (t', r) := handler e in (t ++ t', r)
  end.

(** [try: body  except socket.gaierror: handler] *)
Definition try_except_gaierror {A} (body : M A) (handler : M A) : M A :=
  match body with
  | (t, Ok a) => (t, Ok a)
  | (t, Raise e) =>
      if is_gaierror e then let (t', r) := handler in (t ++ t', r)
      else (t, Raise e)
  end.

Declare Scope py_scope.
Delimit Scope py_scope with py.
Notation "x <- m ;; k" := (bind m (fun x => k))
  (at level 61, m at next level, right associativity) : py_scope.
Notation "m ;; k" := (bind m (fun _ => k))
  (at level 61, right associativity) : py_scope.
Open Scope py_scope.

Definition logger (l : level) (msg : fstring) : M unit := emit (Log l msg).

(** ** cfdns.py *)

Module cfdns.

Definition CF_URL : string := "https://speed.cloudflare.com/meta".

Record CloudflareDNS : Type := mk_CloudflareDNS {
  cf_api_token : string;
  zone_id : string;
  record_name : string
}.

(** [self.headers], which [__enter__] installs on the session. *)
Definition self_headers (self : CloudflareDNS) : list (string * string) :=
  [ ("Authorization", ("Bearer " ++ cf_api_token self)%string);
    ("Content-Type", "application/json") ].

(** [self.session.get / put / post]: the call is recorded and the world
    answers. *)
Definition session_call (w : world) (r : request) : M response :=
  ([Request r], session_request w r).

(** [with CloudflareDNS(...) as updater: body]; [__exit__] closes the
    session on every way out and lets an exception through. *)
Definition with_session {A} (body : M A) : M A :=
  (SessionOpen :: fst body ++ [SessionClose], snd body).

Definition ip_request (self : CloudflareDNS) : request :=
  mk_request GET [Lit CF_URL] (self_headers self) [] None 30.

Definition get_my_ip (w : world) (self : CloudflareDNS) : M pyval :=
  try_except
    (response <- session_call w (ip_request self) ;;
     if status_code response =? 200 then
       data <- lift (json response) ;;
       lift (py_get data "clientIp" PNone)
     else
       logger ERROR [Lit "Failed to get IP: HTTP "; Val (PInt (status_code response))] ;;
       ret PNone)
    (fun e =>
       logger ERROR [Lit "Error getting IP: "; ExcStr e] ;;
       ret PNone).

Definition records_url (self : CloudflareDNS) : fstring :=
  [ Lit "https://api.cloudflare.com/client/v4/zones/"; Val (PStr (zone_id self));
    Lit "/dns_records" ].

Definition record_url (self : CloudflareDNS) (record_id : pyval) : fstring :=
  [ Lit "https://api.cloudflare.com/client/v4/zones/"; Val (PStr (zone_id self));
    Lit "/dns_records/"; Val record_id ].

Definition lookup_request (self : CloudflareDNS) : request :=
  mk_request GET (records_url self) (self_headers self)
             [("name", record_name self)] None 30.

(** The [for record in records] loop of [find_dns_record_id]: [Some v] when
    the loop returns [v], [None] when it runs to its end. *)
Fixpoint find_loop (self : CloudflareDNS) (records : list pyval)
  : M (option pyval) :=
  match records with
  | [] => ret None
  | record :: rest =>
      ty <- lift (py_get record "type" PNone) ;;
      if py_eq_str ty "A" then
        nm <- lift (py_get record "name" PNone) ;;
        if py_eq_str nm (record_name self) then
          record_id <- lift (py_get record "id" PNone) ;;
          logger INFO [ Lit "Found DNS record ID for "; Val (PStr (record_name self));
                        Lit ": "; Val record_id ] ;;
          ret (Some record_id)
        else find_loop self rest
      else find_loop self rest
  end.

Definition unknown_error : pyval :=
  PList [PDict [("message", PStr "Unknown error")]].

(** The [else] branch shared by the three API calls: log the first error
    message of the envelope. *)
Definition log_first_error (what : string) (result : pyval) : M unit :=
  error_messages <- lift (py_get result "errors" unknown_error) ;;
  first <- lift (py_index0 error_messages) ;;
  message <- lift (py_get first "message" PNone) ;;
  logger ERROR [Lit what; Val message].

(** [response.status_code == 200 and result.get("success")] as a truth
    value: [and] does not evaluate its right side when the left is false. *)
Definition status_and_success (response : response) (result : pyval) : M bool :=
  if status_code response =? 200 then
    success <- lift (py_get result "success" PNone) ;;
    ret (truthy success)
  else ret false.

Arguments status_and_success : simpl never.

Definition find_dns_record_id (w : world) (self : CloudflareDNS) : M pyval :=
  try_except
    (response <- session_call w (lookup_request self) ;;
     result <- lift (json response) ;;
     ok <- status_and_success response result ;;
     if (ok : bool) then
       records <- lift (py_get result "result" (PList [])) ;;
       if negb (truthy records) then
         logger WARNING [Lit "No DNS records found with name "; Val (PStr (record_name self))] ;;
         ret PNone
       else
         items <- lift (py_iter records) ;;
         found <- find_loop self items ;;
         match found with
         | Some record_id => ret record_id
         | None =>
             logger WARNING [Lit "No matching A record found for "; Val (PStr (record_name self))] ;;
             ret PNone
         end
     else
       log_first_error "Failed to list DNS records: " result ;;
       ret PNone)
    (fun e =>
       logger ERROR [Lit "Error finding DNS record: "; ExcStr e] ;;
       ret PNone).

(** The [data] dict of [update_dns_record]. *)
Definition record_data (self : CloudflareDNS) (ip_address : pyval) : pyval :=
  PDict [ ("type", PStr "A");
          ("name", PStr (record_name self));
          ("content", ip_address);
          ("ttl", PInt 1);
          ("proxied", PBool false) ].

Definition update_request (self : CloudflareDNS) (ip_address record_id : pyval)
  : request :=
  mk_request PUT (record_url self record_id) (self_headers self) []
             (Some (record_data self ip_address)) 30.

Definition create_request (self : CloudflareDNS) (ip_address : pyval) : request :=
  mk_request POST (records_url self) (self_headers self) []
             (Some (record_data self ip_address)) 30.

(** [record_id] defaults to [None]. *)
Definition update_dns_record (w : world) (self : CloudflareDNS)
           (ip_address record_id : pyval) : M bool :=
  let data := record_data self ip_address in
  try_except
    (if truthy record_id then
       response <- session_call w (update_request self ip_address record_id) ;;
       result <- lift (json response) ;;
       ok <- status_and_success response result ;;
       if (ok : bool) then
         logger INFO [Lit "Successfully updated DNS record to "; Val ip_address] ;;
         ret true
       else
         log_first_error "Failed to update DNS record: " result ;;
         ret false
     else
       response <- session_call w (create_request self ip_address) ;;
       result <- lift (json response) ;;
       ok <- status_and_success response result ;;
       if (ok : bool) then
         logger INFO [ Lit "Successfully created new DNS record for ";
                       Val (PStr (record_name self)); Lit " with IP "; Val ip_address ] ;;
         ret true
       else
         log_first_error "Failed to create DNS record: " result ;;
         ret false)
    (fun e =>
       logger ERROR [Lit "Error updating DNS record: "; ExcStr e] ;;
       ret false).

Definition verify_dns_update (w : world) (self : CloudflareDNS)
           (expected_ip : pyval) : M bool :=
  try_except_gaierror
    (emit (Sleep 5) ;;
     resolved_ip <- ([GetHostByName (record_name self)],
                     gethostbyname w (record_name self)) ;;
     if py_eq_str expected_ip resolved_ip then
       logger INFO [ Lit "DNS verification successful: "; Val (PStr (record_name self));
                     Lit " resolves to "; Val (PStr resolved_ip) ] ;;
       ret true
     else
       logger WARNING [ Lit "DNS verification failed: "; Val (PStr (record_name self));
                        Lit " resolves to "; Val (PStr resolved_ip);
                        Lit ", expected "; Val expected_ip ] ;;
       ret false)
    (logger ERROR [Lit "DNS resolution failed for "; Val (PStr (record_name self))] ;;
     ret false).

End cfdns.

(** ** cfupdater.py *)

Module cfupdater.
Import cfdns.

(** One update cycle.  It returns [None] on every path; what happened is
    in the log. *)
Definition main (w : world) (CF_API_KEY CF_ZONE_ID CF_DNS_RECORD : string) : M unit :=
  logger INFO [Lit "["; Now; Lit "] Running scheduled CF update..."] ;;
  with_session
    (let updater := mk_CloudflareDNS CF_API_KEY CF_ZONE_ID CF_DNS_RECORD in
     ip_address <- get_my_ip w updater ;;
     if negb (truthy ip_address) then
       logger ERROR [Lit "Failed to get current IP address. Exiting."] ;;
       ret tt
     else
       logger INFO [Lit "Current IP address: "; Val ip_address] ;;
       record_id <- find_dns_record_id w updater ;;
       success <-
         (if truthy record_id then
            logger INFO [Lit "Updating existing DNS record with ID: "; Val record_id] ;;
            update_dns_record w updater ip_address record_id
          else
            logger INFO [ Lit "No existing record found. Creating a new DNS record for ";
                          Val (PStr CF_DNS_RECORD) ] ;;
            update_dns_record w updater ip_address PNone) ;;
       if (success : bool) then
         _ <- verify_dns_update w updater ip_address ;;
         ret tt
       else ret tt).

Definition get_interval_seconds (mode : string) : Z :=
  if (mode =? "daily")%string then 24 * 60 * 60
  else if (mode =? "hourly")%string then 60 * 60
  else if (mode =? "min")%string then 60
  else 0.

(** The state of [run] once the first cycle is over: the closure variable
    [runs_left], the delays of the events waiting in the [sched] queue (all
    of them are [run_and_reschedule]), and the number of cycles started so
    far, which is also the index of the next cycle's world. *)
Record sched_state : Type := mk_sched_state {
  runs_left : Z;
  queue : list Z;
  invoked : nat
}.

Definition schedule_next (mode : string) (num_runs : Z) (st : sched_state)
  : sched_state :=
  if negb (num_runs =? 0) && (runs_left st <=? 0) then st
  else
    let interval := get_interval_seconds mode in
    mk_sched_state (runs_left st) (queue st ++ [interval]) (invoked st).

Section Run.

(** The world of each cycle, and the three secrets. *)
Variable ws : nat -> world.
Variables CF_API_KEY CF_ZONE_ID CF_DNS_RECORD : string.
Variable mode : string.
Variable num_runs : Z.

Definition run_and_reschedule (st : sched_state) : M sched_state :=
  main (ws (invoked st)) CF_API_KEY CF_ZONE_ID CF_DNS_RECORD ;;
  let st := mk_sched_state (runs_left st) (queue st) (S (invoked st)) in
  if (num_runs =? 0) || (runs_left st >? 0) then
    ret (schedule_next mode num_runs
           (mk_sched_state (runs_left st - 1) (queue st) (invoked st)))
  else ret st.

(** How a call of [scheduler.run()] stands after a number of events. *)
Inductive outcome : Type :=
| Returned
| Raised (e : exn)
| Running.

(** [scheduler.run()]: while an event waits, wait for its delay and call
    its action.  [fuel] bounds the number of events handled; [Running]
    says that the queue was not empty when the fuel ran out. *)
Fixpoint scheduler_run (fuel : nat) (st : sched_state)
  : list event * outcome * sched_state :=
  match queue st with
  | [] => ([], Returned, st)
  | delay :: rest =>
      match fuel with
      | O => ([], Running, st)
      | S fuel' =>
          match run_and_reschedule
                  (mk_sched_state (runs_left st) rest (invoked st)) with
          | (t, Ok st') =>
              let '(t', o, st'') := scheduler_run fuel' st' in
              (Delay delay :: t ++ t', o, st'')
          | (t, Raise e) =>
              (Delay delay :: t, Raised e,
               mk_sched_state (runs_left st) rest (S (invoked st)))
          end
      end
  end.

End Run.

(** [run(mode, num_runs)].  [secrets] is what [asyncio.run(get_secrets())]
    gives and [mode] is [None] when the option is absent; the cycle number
    [k] runs in the world [ws k].  The result is the trace, how the call
    ended, and the number of cycles started. *)
Definition run (ws : nat -> world) (secrets : res (string * string * string))
           (mode : option string) (num_runs : Z) (fuel : nat)
  : list event * outcome * nat :=
  match secrets with
  | Raise e =>
      ([Log FATAL [Lit "Getting secrets raised Exception "; ExcStr e]], Returned, O)
  | Ok (CF_API_KEY, CF_ZONE_ID, CF_DNS_RECORD) =>
      if negb (forallb (fun s => truthy (PStr s)) [CF_API_KEY; CF_ZONE_ID; CF_DNS_RECORD])
      then
        ([Log FATAL [Lit "Please set CF_API_TOKEN, CF_ZONE_ID, and CF_RECORD_NAME"]],
         Returned, O)
      else
        match main (ws O) CF_API_KEY CF_ZONE_ID CF_DNS_RECORD with
        | (t, Raise e) => (t, Raised e, 1%nat)
        | (t, Ok _) =>
            match mode with
            | None => (t, Returned, 1%nat)
            | Some mode =>
                if negb (truthy (PStr mode)) then (t, Returned, 1%nat)
                else
                  let st := mk_sched_state (num_runs - 1) [] 1 in
                  let st := schedule_next mode num_runs st in
                  let '(t', o, st') :=
                    scheduler_run ws CF_API_KEY CF_ZONE_ID CF_DNS_RECORD
                                  mode num_runs fuel st in
                  (t ++ t', o, invoked st')
            end
        end
  end.

(** *** The secrets *)

Definition CF_API_KEY_REF : string := "op://Services/CF DNS API/credential".
Definition CF_HOST_REF : string := "op://Services/CF DNS API/hostname".
Definition CF_ZONE_ID_REF : string := "op://Services/CF DNS API/zone_id".

(** The credential vault: what [Client.authenticate] answers to a token,
    an integration name and version, and what [client.secrets.resolve]
    answers to a reference. *)
Record vault : Type := mk_vault {
  authenticate : string -> string -> string -> res unit;
  resolve : string -> res string
}.

(** What [get_secrets] does to the vault and to the log, in order. *)
Inductive vault_event : Type :=
| Authenticate (auth integration_name integration_version : string)
| ResolveSecret (reference : string)
| SecretsLog (l : level) (msg : fstring).

(** How [get_secrets] ends: with the three secrets, with its own
    [Exception("No OP service token provided")], or with an exception of
    the vault. *)
Inductive secrets_outcome : Type :=
| Secrets (CF_API_KEY CF_ZONE_ID CF_DNS_RECORD : string)
| NoToken
| VaultRaised (e : exn).

(** [get_secrets()]; [token] is [os.getenv("OP_SERVICE_ACCOUNT_TOKEN")]. *)
Definition get_secrets (token : option string) (v : vault)
  : list vault_event * secrets_outcome :=
  match token with
  | None => ([SecretsLog ERROR [Lit "OP_SERVICE_ACCOUNT_TOKEN unset"]], NoToken)
  | Some token =>
      if negb (truthy (PStr token)) then
        ([SecretsLog ERROR [Lit "OP_SERVICE_ACCOUNT_TOKEN unset"]], NoToken)
      else
        let login := Authenticate token "cfupdater" "1.0" in
        match authenticate v token "cfupdater" "1.0" with
        | Raise e => ([login], VaultRaised e)
        | Ok _ =>
            match resolve v CF_API_KEY_REF with
            | Raise e => ([login; ResolveSecret CF_API_KEY_REF], VaultRaised e)
            | Ok CF_API_KEY =>
                match resolve v CF_ZONE_ID_REF with
                | Raise e =>
                    ([login; ResolveSecret CF_API_KEY_REF;
                      ResolveSecret CF_ZONE_ID_REF], VaultRaised e)
                | Ok CF_ZONE_ID =>
                    match resolve v CF_HOST_REF with
                    | Raise e =>
                        ([login; ResolveSecret CF_API_KEY_REF;
                          ResolveSecret CF_ZONE_ID_REF; ResolveSecret CF_HOST_REF],
                         VaultRaised e)
                    | Ok CF_DNS_RECORD =>
                        ([login; ResolveSecret CF_API_KEY_REF;
                          ResolveSecret CF_ZONE_ID_REF; ResolveSecret CF_HOST_REF],
                         Secrets CF_API_KEY CF_ZONE_ID CF_DNS_RECORD)
                    end
                end
            end
        end
  end.

(** [run(mode, num_runs)] with the secrets read as [get_secrets] reads
    them.  For the missing token the [except] branch of [run] is written
    out: the exception is a plain [Exception], whose text is its message. *)
Definition run_from_env (token : option string) (v : vault) (ws : nat -> world)
           (mode : option string) (num_runs : Z) (fuel : nat)
  : list vault_event * (list event * outcome * nat) :=
  match get_secrets token v with
  | (vt, Secrets CF_API_KEY CF_ZONE_ID CF_DNS_RECORD) =>
      (vt, run ws (Ok (CF_API_KEY, CF_ZONE_ID, CF_DNS_RECORD)) mode num_runs fuel)
  | (vt, VaultRaised e) => (vt, run ws (Raise e) mode num_runs fuel)
  | (vt, NoToken) =>
      (vt, ([Log FATAL [Lit "Getting secrets raised Exception ";
                        Lit "No OP service token provided"]], Returned, O))
  end.

End cfupdater.

(** ** What a trace and an answer show *)

Import cfdns cfupdater.

(** The requests sent in a trace, in order. *)
Fixpoint requests (t : list event) : list request :=
  match t with
  | [] => []
  | Request r :: rest => r :: requests rest
  | _ :: rest => requests rest
  end.

(** The name resolutions attempted in a trace. *)
Fixpoint resolutions (t : list event) : list string :=
  match t with
  | [] => []
  | GetHostByName h :: rest => h :: resolutions rest
  | _ :: rest => resolutions rest
  end.

(** The propagation waits of a trace. *)
Fixpoint sleeps (t : list event) : list Z :=
  match t with
  | [] => []
  | Sleep s :: rest => s :: sleeps rest
  | _ :: rest => sleeps rest
  end.

(** The log records of a trace. *)
Fixpoint logs (t : list event) : list (level * fstring) :=
  match t with
  | [] => []
  | Log l m :: rest => (l, m) :: logs rest
  | _ :: rest => logs rest
  end.

(** The upsert calls among some requests: the PUT and POST ones. *)
Definition is_upsert (r : request) : bool :=
  match meth r with GET => false | PUT | POST => true end.

(** The answer to an API call is HTTP 200 with a JSON envelope whose
    [success] is true. *)
Definition provider_success (a : res response) : bool :=
  match a with
  | Ok resp =>
      match json resp with
      | Ok (PDict items) =>
          (status_code resp =? 200) && truthy (dict_get items "success" PNone)
      | _ => false
      end
  | Raise _ => false
  end.

(** The record-lookup step fails: the session raises, the body does not
    parse to an envelope, the status is not 200, or the provider reports an
    error. *)
Definition lookup_failed (a : res response) : bool := negb (provider_success a).

Fixpoint dict_find (items : list (string * pyval)) (key : string) : option pyval :=
  match items with
  | [] => None
  | (k, v) :: rest => if (k =? key)%string then Some v else dict_find rest key
  end.

(** The provider's first error message: [errors[0].message] of the
    envelope, when the envelope has it. *)
Definition provider_first_error (result : pyval) : option pyval :=
  match result with
  | PDict items =>
      match dict_find items "errors" with
      | Some (PList (PDict e :: _)) => dict_find e "message"
      | _ => None
      end
  | _ => None
  end.

(** A record of the lookup result is the one looked for: a dict of type
    "A" whose name is the configured one. *)
Definition record_matches (self : CloudflareDNS) (record : pyval) : bool :=
  match record with
  | PDict items =>
      py_eq_str (dict_get items "type" PNone) "A"
      && py_eq_str (dict_get items "name" PNone) (record_name self)
  | _ => false
  end.

(** The worlds used as concrete inputs below. *)
Definition envelope (success : bool) (result errors : pyval) : pyval :=
  PDict [("success", PBool success); ("errors", errors); ("result", result)].

Definition a_record (id name : string) : pyval :=
  PDict [("id", PStr id); ("type", PStr "A"); ("name", PStr name);
         ("content", PStr "198.51.100.4")].

Definition meta_ok : res response :=
  Ok (mk_response 200 (Ok (PDict [("clientIp", PStr "203.0.113.7")]))).

(** A world is given by its answers to the IP query, the lookup and the
    upsert, and by the resolver's answer. *)
Definition world_of (ip lookup upsert : res response) (dns : res string) : world :=
  mk_world
    (fun r =>
       match meth r with
       | GET => match params r with [] => ip | _ => lookup end
       | PUT | POST => upsert
       end)
    (fun _ => dns).

Definition upsert_ok : res response :=
  Ok (mk_response 200 (Ok (envelope true (a_record "X" "host.example.com") (PList [])))).

Definition upsert_rejected : res response :=
  Ok (mk_response 400
        (Ok (envelope false PNone
               (PList [PDict [("code", PInt 81057);
                              ("message", PStr "Record already exists.")]])))).

Definition lookup_one : res response :=
  Ok (mk_response 200
        (Ok (envelope true (PList [a_record "X" "host.example.com"]) (PList [])))).

Definition lookup_error : res response :=
  Ok (mk_response 500
        (Ok (envelope false PNone
               (PList [PDict [("message", PStr "Internal server error")]])))).

Definition txt_record : pyval :=
  PDict [("id", PStr "T"); ("type", PStr "TXT"); ("name", PStr "host.example.com")].

Definition records_many : list pyval :=
  [ txt_record; a_record "O" "other.example.com";
    a_record "X" "host.example.com"; a_record "Y" "host.example.com" ].

Definition lookup_many_response : response :=
  mk_response 200 (Ok (envelope true (PList records_many) (PList []))).

Definition meta_unavailable : res response :=
  Ok (mk_response 503 (Raise JSONDecodeError)).

(** The cycle in which the lookup is answered with an HTTP 500. *)
Definition world_lookup_error : world :=
  world_of meta_ok lookup_error upsert_ok (Ok "203.0.113.7").

(** The cycle in which everything succeeds and the resolver still gives
    the old address. *)
Definition world_stale_dns : world :=
  world_of meta_ok lookup_one upsert_ok (Ok "198.51.100.4").

(** The cycle in which everything succeeds and name resolution fails with
    a system error ([EAI_SYSTEM]), which [socket.gethostbyname] raises as a
    plain [OSError]. *)
Definition world_resolver_oserror : world :=
  world_of meta_ok lookup_one upsert_ok (Raise OSError).

(** The trace of [count] scheduled cycles, the first of them being cycle
    number [first]: each one is waited for, then run. *)
Fixpoint later_cycles (ws : nat -> world) (k z r : string) (interval : Z)
         (first count : nat) : list event :=
  match count with
  | O => []
  | S n =>
      Delay interval :: fst (main (ws first) k z r)
        ++ later_cycles ws k z r interval (S first) n
  end.

Definition the_self : CloudflareDNS :=
  mk_CloudflareDNS "token" "zone1" "host.example.com".

Definition is_log (e : event) : bool :=
  match e with Log _ _ => true | _ => false end.

(** A client operation that sends the one request [req], logs, and
    returns a value: no exception leaves it. *)
Definition one_call {A} (req : request) (m : M A) : Prop :=
  exists t a, m = (Request req :: t, Ok a) /\ forallb is_log t = true.

(** The record [main] passes to the client. *)
Definition updater_of (CF_API_KEY CF_ZONE_ID CF_DNS_RECORD : string) : CloudflareDNS :=
  mk_CloudflareDNS CF_API_KEY CF_ZONE_ID CF_DNS_RECORD.

(** The upsert call of [main] after a lookup that returned [record_id]. *)
Definition upsert_of (w : world) (self : CloudflareDNS) (ip_address record_id : pyval)
  : M bool :=
  update_dns_record w self ip_address (if truthy record_id then record_id else PNone).



(** The scheduler's waits of a trace. *)
Fixpoint delays (t : list event) : list Z :=
  match t with
  | [] => []
  | Delay d :: rest => d :: delays rest
  | _ :: rest => delays rest
  end.

(** What happens inside a session: requests, the propagation check and log
    records, and neither the opening or closing of a session nor a wait of
    the scheduler. *)
Definition inner_event (e : event) : bool :=
  match e with
  | Request _ | Sleep _ | GetHostByName _ | Log _ _ => true
  | SessionOpen | SessionClose | Delay _ => false
  end.

(** The calls to the vault in what [get_secrets] did. *)
Fixpoint vault_calls (t : list vault_event) : list vault_event :=
  match t with
  | [] => []
  | SecretsLog _ _ :: rest => vault_calls rest
  | e :: rest => e :: vault_calls rest
  end.

(** The secrets [run] goes on with: all three are there and none is
    empty. *)
Definition usable_secrets (secrets : res (string * string * string)) : bool :=
  match secrets with
  | Ok (k, z, r) => forallb (fun s => truthy (PStr s)) [k; z; r]
  | Raise _ => false
  end.

(** An IP answer with the address in its body and the status 403. *)
Definition meta_forbidden_response : response :=
  mk_response 403 (Ok (PDict [("clientIp", PStr "203.0.113.7")])).

Definition world_meta_forbidden : world :=
  world_of (Ok meta_forbidden_response) lookup_one upsert_ok (Ok "203.0.113.7").

(** A lookup answer whose first matching record has no id, before one
    that has. *)
Definition lookup_no_id : res response :=
  Ok (mk_response 200
        (Ok (envelope true
               (PList [ PDict [("type", PStr "A"); ("name", PStr "host.example.com")];
                        a_record "Y" "host.example.com" ])
               (PList [])))).

(** A lookup answer with a string among the records. *)
Definition lookup_bad_element : res response :=
  Ok (mk_response 200
        (Ok (envelope true
               (PList [PStr "oops"; a_record "Y" "host.example.com"])
               (PList [])))).

(** Cycles of which the third one (number 2) meets the resolver's
    [OSError]. *)
Definition worlds_third_raises (i : nat) : world :=
  match i with
  | 2%nat => world_resolver_oserror
  | _ => world_stale_dns
  end.

(** A vault that knows the three references. *)
Definition the_vault : vault :=
  mk_vault (fun _ _ _ => Ok tt)
           (fun reference =>
              if (reference =? CF_API_KEY_REF)%string then Ok "token"
              else if (reference =? CF_ZONE_ID_REF)%string then Ok "zone1"
              else if (reference =? CF_HOST_REF)%string then Ok "host.example.com"
              else Raise KeyError).

(** ** Properties *)

(** *** Traces *)

Lemma requests_app (t u : list event) :
  requests (t ++ u) = requests t ++ requests u.
Proof.
  induction t as [|[] t IH]; simpl; auto. now rewrite IH.
Qed.

Lemma resolutions_app (t u : list event) :
  resolutions (t ++ u) = resolutions t ++ resolutions u.
Proof.
  induction t as [|[] t IH]; simpl; auto. now rewrite IH.
Qed.

Lemma sleeps_app (t u : list event) :
  sleeps (t ++ u) = sleeps t ++ sleeps u.
Proof.
  induction t as [|[] t IH]; simpl; auto. now rewrite IH.
Qed.

Lemma logs_app (t u : list event) :
  logs (t ++ u) = logs t ++ logs u.
Proof.
  induction t as [|[] t IH]; simpl; auto. now rewrite IH.
Qed.

(** A cycle in which everything succeeds: the IP query, the lookup, and
    the update of the record found. *)
Example cycle_updates_found_record :
  requests (fst (main world_stale_dns "token" "zone1" "host.example.com"))
  = [ ip_request the_self; lookup_request the_self;
      update_request the_self (PStr "203.0.113.7") (PStr "X") ]
  /\ snd (main world_stale_dns "token" "zone1" "host.example.com") = Ok tt.
Proof. split; reflexivity. Qed.

(** A rejected upsert: the result is [False] and the log has the
    provider's message. *)
Example rejected_upsert_is_logged :
  update_dns_record (world_of meta_ok lookup_one upsert_rejected (Ok "203.0.113.7"))
                    the_self (PStr "203.0.113.7") PNone
  = ([ Request (create_request the_self (PStr "203.0.113.7"));
       Log ERROR [Lit "Failed to create DNS record: ";
                  Val (PStr "Record already exists.")] ],
     Ok false).
Proof. reflexivity. Qed.

Lemma string_append_assoc (a b c : string) :
  ((a ++ b) ++ c = a ++ (b ++ c))%string.
Proof.
  induction a as [|x a IH]; simpl; [reflexivity | now rewrite IH].
Qed.

Lemma string_append_nil_r (a : string) : (a ++ "" = a)%string.
Proof.
  induction a as [|x a IH]; simpl; [reflexivity | now rewrite IH].
Qed.

(** *** The interval of a mode *)

(** C2, as stated, fails: the key of the one-minute mode is "min", and
    "minutely" is a mode the table does not know, so its interval is 0 and
    not 60. *)
Lemma get_interval_seconds_minutely_is_zero :
  get_interval_seconds "minutely" = 0 /\ get_interval_seconds "minutely" <> 60.
Proof. split; [reflexivity | discriminate]. Qed.

(** C2, amended: "daily" gives 86400 seconds, "hourly" 3600 and "min" 60;
    every other mode gives 0. *)
Theorem get_interval_seconds_table :
  get_interval_seconds "daily" = 86400
  /\ get_interval_seconds "hourly" = 3600
  /\ get_interval_seconds "min" = 60
  /\ forall mode : string,
       mode <> "daily" -> mode <> "hourly" -> mode <> "min" ->
       get_interval_seconds mode = 0.
Proof.
  repeat split; try reflexivity.
  intros mode Hd Hh Hm. unfold get_interval_seconds.
  destruct (String.eqb_spec mode "daily"); [contradiction|].
  destruct (String.eqb_spec mode "hourly"); [contradiction|].
  destruct (String.eqb_spec mode "min"); [contradiction|].
  reflexivity.
Qed.

Lemma get_interval_seconds_table_witness :
  get_interval_seconds "weekly" = 0.
Proof.
  apply (proj2 (proj2 (proj2 get_interval_seconds_table)) "weekly");
    discriminate.
Defined.

(** *** The client operations: one request each, no exception *)

Ltac one_call_done :=
  unfold one_call; do 2 eexists; split; reflexivity.

Ltac one_call_with H :=
  unfold one_call; do 2 eexists; (split; [reflexivity|]);
  rewrite ?forallb_app, ?app_nil_r; simpl; rewrite ?H; reflexivity.

Lemma logs_only_requests (t : list event) :
  forallb is_log t = true -> requests t = [].
Proof.
  induction t as [|[] t IH]; simpl; auto; discriminate.
Qed.

Lemma logs_only_resolutions (t : list event) :
  forallb is_log t = true -> resolutions t = [].
Proof.
  induction t as [|[] t IH]; simpl; auto; discriminate.
Qed.

Lemma logs_only_sleeps (t : list event) :
  forallb is_log t = true -> sleeps t = [].
Proof.
  induction t as [|[] t IH]; simpl; auto; discriminate.
Qed.

Lemma find_loop_logs (self : CloudflareDNS) (records : list pyval) :
  forallb is_log (fst (find_loop self records)) = true.
Proof.
  induction records as [|r rest IH]; simpl; auto.
  destruct r; simpl; auto.
  destruct (py_eq_str (dict_get items "type" PNone) "A"); simpl; auto.
  destruct (py_eq_str (dict_get items "name" PNone) (record_name self)); simpl; auto.
  all: destruct (find_loop self rest); auto.
Qed.

Lemma log_first_error_logs (what : string) (result : pyval) :
  forallb is_log (fst (log_first_error what result)) = true.
Proof.
  unfold log_first_error. destruct result; simpl; auto.
  destruct (dict_get items "errors" unknown_error) as [| | |s|l|d]; simpl; auto.
  - destruct s; simpl; auto.
  - destruct l as [|x l]; simpl; auto. destruct x; simpl; auto.
Qed.

Lemma status_and_success_value (resp : response) (result : pyval) :
  status_and_success resp result
  = ([], match result with
         | PDict items =>
             Ok ((status_code resp =? 200) && truthy (dict_get items "success" PNone))
         | _ => if status_code resp =? 200 then Raise AttributeError else Ok false
         end).
Proof.
  unfold status_and_success.
  destruct (status_code resp =? 200); destruct result; reflexivity.
Qed.

Ltac api_answer w st js v :=
  destruct (session_request w _) as [[st js]|?e]; simpl;
  [ destruct js as [v|?e]; simpl;
    [ rewrite status_and_success_value; cbn [status_code] | ]
  | ].

Lemma get_my_ip_one_call (w : world) (self : CloudflareDNS) :
  one_call (ip_request self) (get_my_ip w self).
Proof.
  unfold get_my_ip, session_call.
  destruct (session_request w _) as [[st js]|e]; simpl; [|one_call_done].
  destruct (st =? 200); simpl; [|one_call_done].
  destruct js as [v|e]; simpl; [|one_call_done].
  destruct v; simpl; one_call_done.
Qed.

Lemma find_dns_record_id_one_call (w : world) (self : CloudflareDNS) :
  one_call (lookup_request self) (find_dns_record_id w self).
Proof.
  unfold find_dns_record_id, session_call.
  api_answer w st js v; try one_call_done.
  destruct v; simpl; try (destruct (st =? 200); simpl; one_call_done).
  destruct ((st =? 200) && truthy (dict_get items "success" PNone)); simpl.
  - destruct (truthy (dict_get items "result" (PList []))); simpl; [|one_call_done].
    destruct (py_iter (dict_get items "result" (PList []))) as [l|e]; simpl;
      [|one_call_done].
    pose proof (find_loop_logs self l) as H.
    destruct (find_loop self l) as [t [[id|]|e]]; simpl in *; one_call_with H.
  - pose proof (log_first_error_logs "Failed to list DNS records: " (PDict items)) as H.
    destruct (log_first_error _ _) as [t [[]|e]]; simpl in *; one_call_with H.
Qed.

Lemma update_dns_record_one_call (w : world) (self : CloudflareDNS) (ip rid : pyval) :
  one_call (if truthy rid then update_request self ip rid else create_request self ip)
           (update_dns_record w self ip rid).
Proof.
  unfold update_dns_record, session_call.
  destruct (truthy rid); cbv zeta;
    (api_answer w st js v; try one_call_done);
    (destruct v; simpl; try (destruct (st =? 200); simpl; one_call_done));
    (destruct ((st =? 200) && truthy (dict_get items "success" PNone)); simpl;
       [one_call_done|]).
  - pose proof (log_first_error_logs "Failed to update DNS record: " (PDict items)) as H.
    destruct (log_first_error _ _) as [t [[]|e]]; simpl in *; one_call_with H.
  - pose proof (log_first_error_logs "Failed to create DNS record: " (PDict items)) as H.
    destruct (log_first_error _ _) as [t [[]|e]]; simpl in *; one_call_with H.
Qed.

Lemma one_call_requests {A} (req : request) (m : M A) :
  one_call req m -> requests (fst m) = [req].
Proof.
  intros (t & a & -> & Ht); simpl. now rewrite logs_only_requests.
Qed.

(** *** The upsert *)

Lemma update_dns_record_outcome (w : world) (self : CloudflareDNS) (ip rid : pyval) :
  snd (update_dns_record w self ip rid)
  = Ok (provider_success
          (session_request w (if truthy rid then update_request self ip rid
                              else create_request self ip))).
Proof.
  unfold update_dns_record, session_call, log_first_error, provider_success.
  destruct (truthy rid); cbv zeta;
    (api_answer w st js v; auto);
    (destruct v; simpl; try (destruct (st =? 200); simpl; reflexivity));
    (destruct ((st =? 200) && truthy (dict_get items "success" PNone)); simpl; auto);
    (destruct (dict_get items "errors" unknown_error) as [| | |s|l|d]; simpl; auto);
    try (destruct s; simpl; auto);
    try (destruct l as [|x l]; simpl; auto; destruct x; simpl; auto).
Qed.

Lemma dict_find_get (items : list (string * pyval)) (key : string) (d v : pyval) :
  dict_find items key = Some v -> dict_get items key d = v.
Proof.
  induction items as [|[k x] rest IH]; simpl; [discriminate|].
  destruct (k =? key)%string; [congruence | exact IH].
Qed.

Lemma log_first_error_message (what : string) (result m : pyval) :
  provider_first_error result = Some m ->
  log_first_error what result = ([Log ERROR [Lit what; Val m]], Ok tt).
Proof.
  unfold provider_first_error, log_first_error.
  destruct result as [| | | | |items]; try discriminate.
  destruct (dict_find items "errors") as [errs|] eqn:E; [|discriminate].
  destruct errs as [| | | |l|]; try discriminate.
  destruct l as [|x l]; [discriminate|].
  destruct x as [| | | | |e]; try discriminate.
  intros Hm. simpl.
  rewrite (dict_find_get _ _ unknown_error _ E). simpl.
  now rewrite (dict_find_get _ _ PNone _ Hm).
Qed.

Lemma update_dns_record_failure_log (w : world) (self : CloudflareDNS)
      (ip rid : pyval) (resp : response) (result m : pyval) :
  session_request w (if truthy rid then update_request self ip rid
                     else create_request self ip) = Ok resp ->
  json resp = Ok result ->
  provider_success (Ok resp) = false ->
  provider_first_error result = Some m ->
  logs (fst (update_dns_record w self ip rid))
  = [(ERROR, [Lit (if truthy rid then "Failed to update DNS record: "
                   else "Failed to create DNS record: "); Val m])].
Proof.
  intros Hreq Hjson Hfail Hm.
  unfold update_dns_record, session_call.
  destruct (truthy rid); cbv zeta; rewrite Hreq; simpl; rewrite Hjson; simpl;
    rewrite status_and_success_value;
    unfold provider_success in Hfail; rewrite Hjson in Hfail;
    (destruct result as [| | | | |items]; try discriminate); simpl;
    rewrite Hfail; simpl;
    rewrite (log_first_error_message _ _ _ Hm); reflexivity.
Qed.

(** C6: with no record id the upsert sends one POST to the zone's records,
    with a record id (a true one) one PUT to the record's own URL, which
    for a str id is the collection URL followed by "/" and the id; the two
    requests carry the same payload
    [{type: "A", name: record_name, content: ip, ttl: 1, proxied: false}],
    headers and timeout, and differ in method and URL only.  The result is
    [True] exactly when the answer is HTTP 200 with a true [success], and
    [False] otherwise, never an exception; when the failed answer has a
    first error message, that message is what the error record carries. *)
Theorem upsert_record_create_or_update (w : world) (self : CloudflareDNS)
        (ip rid : pyval) (Hrid : truthy rid = true) :
  let create := update_dns_record w self ip PNone in
  let update := update_dns_record w self ip rid in
  let payload := PDict [ ("type", PStr "A"); ("name", PStr (record_name self));
                         ("content", ip); ("ttl", PInt 1); ("proxied", PBool false) ] in
  exists rc ru : request,
    requests (fst create) = [rc] /\ requests (fst update) = [ru]
    /\ meth rc = POST /\ meth ru = PUT
    /\ url rc = records_url self /\ url ru = record_url self rid
    /\ (forall id : string, rid = PStr id ->
        exists base : string,
          fstr_text (url rc) = Some base
          /\ fstr_text (url ru) = Some (base ++ "/" ++ id)%string)
    /\ json_data rc = Some payload /\ json_data ru = Some payload
    /\ headers rc = headers ru /\ params rc = params ru /\ timeout rc = timeout ru
    /\ snd create = Ok (provider_success (session_request w rc))
    /\ snd update = Ok (provider_success (session_request w ru))
    /\ (forall resp result m,
          session_request w rc = Ok resp -> json resp = Ok result ->
          provider_success (Ok resp) = false ->
          provider_first_error result = Some m ->
          logs (fst create) = [(ERROR, [Lit "Failed to create DNS record: "; Val m])])
    /\ (forall resp result m,
          session_request w ru = Ok resp -> json resp = Ok result ->
          provider_success (Ok resp) = false ->
          provider_first_error result = Some m ->
          logs (fst update) = [(ERROR, [Lit "Failed to update DNS record: "; Val m])]).
Proof.
  intros create update payload.
  exists (create_request self ip), (update_request self ip rid).
  pose proof (update_dns_record_one_call w self ip PNone) as Hc.
  pose proof (update_dns_record_one_call w self ip rid) as Hu.
  pose proof (update_dns_record_outcome w self ip PNone) as Oc.
  pose proof (update_dns_record_outcome w self ip rid) as Ou.
  rewrite Hrid in Hu, Ou. simpl truthy in Hc, Oc. cbv iota in Hc, Oc.
  repeat match goal with |- _ /\ _ => split end;
    try reflexivity; try assumption.
  - now apply one_call_requests.
  - now apply one_call_requests.
  - intros id ->. cbn [url create_request update_request records_url record_url
                          fstr_text option_map].
    eexists; split; [reflexivity|].
    rewrite !string_append_nil_r, !string_append_assoc. reflexivity.
  - intros resp result m H1 H2 H3 H4.
    apply (update_dns_record_failure_log w self ip PNone resp result m); assumption.
  - intros resp result m H1 H2 H3 H4.
    pose proof (update_dns_record_failure_log w self ip rid resp result m) as L.
    rewrite Hrid in L. apply L; assumption.
Qed.

Lemma upsert_record_create_or_update_witness :
  truthy (PStr "X") = true
  /\ exists ru : request,
       requests (fst (update_dns_record
                        (world_of meta_ok lookup_one upsert_rejected (Ok "203.0.113.7"))
                        the_self (PStr "203.0.113.7") (PStr "X"))) = [ru]
       /\ meth ru = PUT
       /\ url ru = record_url the_self (PStr "X").
Proof.
  split; [reflexivity|].
  destruct (upsert_record_create_or_update
              (world_of meta_ok lookup_one upsert_rejected (Ok "203.0.113.7"))
              the_self (PStr "203.0.113.7") (PStr "X") eq_refl)
    as (rc & ru & _ & Hu & _ & Hm & _ & Hurl & _).
  exists ru. repeat split; assumption.
Defined.

(** C9: an empty-string record id is false, so the upsert does with it
    what it does with no id at all: one POST to the zone's records, and no
    PUT to a record's URL. *)
Theorem update_dns_record_empty_id_creates (w : world) (self : CloudflareDNS)
        (ip : pyval) :
  update_dns_record w self ip (PStr "") = update_dns_record w self ip PNone
  /\ requests (fst (update_dns_record w self ip (PStr ""))) = [create_request self ip]
  /\ meth (create_request self ip) = POST
  /\ url (create_request self ip) = records_url self.
Proof.
  repeat split.
  apply (one_call_requests _ _ (update_dns_record_one_call w self ip (PStr ""))).
Qed.

(** *** The record lookup *)

Lemma find_loop_no_match (self : CloudflareDNS) (records : list pyval) :
  Forall (fun r => is_dict r = true /\ record_matches self r = false) records ->
  find_loop self records = ([], Ok None).
Proof.
  induction 1 as [|r rest [Hd Hm] _ IH]; [reflexivity|].
  destruct r; try discriminate. simpl in *.
  destruct (py_eq_str (dict_get items "type" PNone) "A"); simpl in *;
    rewrite ?Hm, IH; reflexivity.
Qed.

Lemma find_loop_skip (self : CloudflareDNS) (items : list (string * pyval))
      (rest : list pyval) :
  record_matches self (PDict items) = false ->
  snd (find_loop self (PDict items :: rest)) = snd (find_loop self rest).
Proof.
  simpl. intros Hm.
  destruct (py_eq_str (dict_get items "type" PNone) "A"); simpl in *;
    rewrite ?Hm; destruct (find_loop self rest); reflexivity.
Qed.

Lemma find_loop_mismatch_only (self : CloudflareDNS) (records : list pyval) :
  Forall (fun r => record_matches self r = false) records ->
  snd (find_loop self records) = Ok None
  \/ exists e, snd (find_loop self records) = Raise e.
Proof.
  induction 1 as [|r rest Hm _ IH]; [now left|].
  destruct r; try (right; eexists; reflexivity).
  now rewrite find_loop_skip.
Qed.

Lemma find_loop_first_match (self : CloudflareDNS) (before after : list pyval)
      (items : list (string * pyval)) :
  Forall (fun r => is_dict r = true /\ record_matches self r = false) before ->
  record_matches self (PDict items) = true ->
  snd (find_loop self (before ++ PDict items :: after))
  = Ok (Some (dict_get items "id" PNone)).
Proof.
  intros Hb Hm.
  induction Hb as [|r rest [Hd Hr] _ IH].
  - simpl in *. apply andb_prop in Hm as [-> ->]. reflexivity.
  - destruct r; try discriminate.
    rewrite <- app_comm_cons, find_loop_skip; assumption.
Qed.

(** What [find_dns_record_id] returns on a successful answer whose
    [result] is a list. *)
Lemma find_dns_record_id_success (w : world) (self : CloudflareDNS)
      (resp : response) (items : list (string * pyval)) (records : list pyval) :
  session_request w (lookup_request self) = Ok resp ->
  status_code resp = 200 ->
  json resp = Ok (PDict items) ->
  truthy (dict_get items "success" PNone) = true ->
  dict_get items "result" (PList []) = PList records ->
  snd (find_dns_record_id w self)
  = match records with
    | [] => Ok PNone
    | _ => match snd (find_loop self records) with
           | Ok (Some record_id) => Ok record_id
           | _ => Ok PNone
           end
    end.
Proof.
  intros Hreq Hst Hjson Hsucc Hres.
  unfold find_dns_record_id, session_call.
  rewrite Hreq. destruct resp as [st js]; simpl in *. subst st js. simpl.
  rewrite ?status_and_success_value. simpl.
  rewrite Hsucc, Hres. simpl.
  destruct records as [|r rest]; [reflexivity|].
  cbn [negb py_iter lift bind app].
  destruct (find_loop self (r :: rest)) as [t [[id|]|e]]; reflexivity.
Qed.

(** C7: on a successful lookup answer, [find_dns_record_id] returns [None]
    when the answer has no records, and when none of its records is an A
    record with exactly the configured name; when records come before the
    first such A record and any records after it, it returns the id of that
    first one. *)
Theorem find_record_first_match (w : world) (self : CloudflareDNS)
        (resp : response) (items : list (string * pyval)) (records : list pyval)
        (Hreq : session_request w (lookup_request self) = Ok resp)
        (Hstatus : status_code resp = 200)
        (Hjson : json resp = Ok (PDict items))
        (Hsuccess : truthy (dict_get items "success" PNone) = true)
        (Hresult : dict_get items "result" (PList []) = PList records) :
  (records = [] -> snd (find_dns_record_id w self) = Ok PNone)
  /\ (Forall (fun r => record_matches self r = false) records ->
      snd (find_dns_record_id w self) = Ok PNone)
  /\ (forall before first after,
        records = before ++ PDict first :: after ->
        Forall (fun r => is_dict r = true /\ record_matches self r = false) before ->
        record_matches self (PDict first) = true ->
        snd (find_dns_record_id w self) = Ok (dict_get first "id" PNone)).
Proof.
  rewrite (find_dns_record_id_success w self resp items records) by assumption.
  repeat split.
  - now intros ->.
  - intros Hall. destruct records as [|r rest]; [reflexivity|].
    destruct (find_loop_mismatch_only self _ Hall) as [-> | [e ->]]; reflexivity.
  - intros before first after -> Hb Hm.
    rewrite (find_loop_first_match self before after first Hb Hm).
    destruct before; reflexivity.
Qed.

Lemma find_record_first_match_witness :
  snd (find_dns_record_id
         (world_of meta_ok (Ok lookup_many_response) upsert_ok (Ok "203.0.113.7"))
         the_self)
  = Ok (PStr "X").
Proof.
  refine (proj2 (proj2 (find_record_first_match
                          (world_of meta_ok (Ok lookup_many_response) upsert_ok
                                    (Ok "203.0.113.7"))
                          the_self lookup_many_response
                          [("success", PBool true); ("errors", PList []);
                           ("result", PList records_many)]
                          records_many
                          eq_refl eq_refl eq_refl eq_refl eq_refl))
            [txt_record; a_record "O" "other.example.com"]
            [("id", PStr "X"); ("type", PStr "A"); ("name", PStr "host.example.com");
             ("content", PStr "198.51.100.4")]
            [a_record "Y" "host.example.com"]
            eq_refl _ eq_refl).
  repeat constructor.
Defined.

(** *** The propagation check *)

Lemma verify_dns_update_outcome (w : world) (self : CloudflareDNS) (ip : pyval) :
  snd (verify_dns_update w self ip)
  = match gethostbyname w (record_name self) with
    | Ok resolved_ip => Ok (py_eq_str ip resolved_ip)
    | Raise e => if is_gaierror e then Ok false else Raise e
    end.
Proof.
  unfold verify_dns_update. simpl.
  destruct (gethostbyname w (record_name self)) as [r|e]; simpl.
  - destruct (py_eq_str ip r); reflexivity.
  - destruct (is_gaierror e); reflexivity.
Qed.

Lemma verify_dns_update_trace (w : world) (self : CloudflareDNS) (ip : pyval) :
  sleeps (fst (verify_dns_update w self ip)) = [5]
  /\ resolutions (fst (verify_dns_update w self ip)) = [record_name self]
  /\ requests (fst (verify_dns_update w self ip)) = [].
Proof.
  unfold verify_dns_update. simpl.
  destruct (gethostbyname w (record_name self)) as [r|e]; simpl.
  - destruct (py_eq_str ip r); simpl; auto.
  - destruct (is_gaierror e); simpl; auto.
Qed.

(** *** One cycle *)

Lemma main_without_ip (w : world) (k z r : string) (ip : pyval) :
  snd (get_my_ip w (updater_of k z r)) = Ok ip ->
  truthy ip = false ->
  main w k z r
  = (Log INFO [Lit "["; Now; Lit "] Running scheduled CF update..."]
       :: SessionOpen
       :: fst (get_my_ip w (updater_of k z r))
       ++ [Log ERROR [Lit "Failed to get current IP address. Exiting."]; SessionClose],
     Ok tt).
Proof.
  unfold main, updater_of. intros Hip Hf.
  destruct (get_my_ip w _) as [t1 r1]; simpl in *; subst r1.
  rewrite Hf. simpl. rewrite ?app_nil_r, <- ?app_assoc. reflexivity.
Qed.

Lemma main_with_ip (w : world) (k z r : string) (ip rid : pyval) (b : bool) :
  snd (get_my_ip w (updater_of k z r)) = Ok ip ->
  truthy ip = true ->
  snd (find_dns_record_id w (updater_of k z r)) = Ok rid ->
  snd (upsert_of w (updater_of k z r) ip rid) = Ok b ->
  main w k z r
  = (Log INFO [Lit "["; Now; Lit "] Running scheduled CF update..."]
       :: SessionOpen
       :: fst (get_my_ip w (updater_of k z r))
       ++ Log INFO [Lit "Current IP address: "; Val ip]
       :: fst (find_dns_record_id w (updater_of k z r))
       ++ Log INFO (if truthy rid
                    then [Lit "Updating existing DNS record with ID: "; Val rid]
                    else [Lit "No existing record found. Creating a new DNS record for ";
                          Val (PStr r)])
       :: fst (upsert_of w (updater_of k z r) ip rid)
       ++ (if b then fst (verify_dns_update w (updater_of k z r) ip) else [])
       ++ [SessionClose],
     if b then
       match snd (verify_dns_update w (updater_of k z r) ip) with
       | Ok _ => Ok tt
       | Raise e => Raise e
       end
     else Ok tt).
Proof.
  unfold main, upsert_of, updater_of. intros Hip Ht Hrid Hb.
  destruct (get_my_ip w _) as [t1 r1]; simpl in *; subst r1.
  rewrite Ht. simpl.
  destruct (find_dns_record_id w _) as [t2 r2]; simpl in *; subst r2.
  destruct (truthy rid); simpl;
    destruct (update_dns_record w _ ip _) as [t3 r3]; simpl in *; subst r3;
    (destruct b; simpl;
     [ destruct (verify_dns_update w _ ip) as [t4 [v|e]]; simpl
     | ]);
    rewrite ?app_nil_r; repeat (rewrite <- ?app_assoc; simpl); reflexivity.
Qed.

Lemma main_requests_with_ip (w : world) (k z r : string) (ip rid : pyval) :
  snd (get_my_ip w (updater_of k z r)) = Ok ip ->
  truthy ip = true ->
  snd (find_dns_record_id w (updater_of k z r)) = Ok rid ->
  requests (fst (main w k z r))
  = [ ip_request (updater_of k z r); lookup_request (updater_of k z r);
      if truthy rid then update_request (updater_of k z r) ip rid
      else create_request (updater_of k z r) ip ].
Proof.
  intros Hip Ht Hrid.
  pose proof (update_dns_record_one_call w (updater_of k z r) ip
                (if truthy rid then rid else PNone)) as Hu.
  assert (exists b, snd (upsert_of w (updater_of k z r) ip rid) = Ok b) as [b Hb].
  { destruct Hu as (t & a & E & _). exists a. unfold upsert_of. now rewrite E. }
  rewrite (main_with_ip w k z r ip rid b Hip Ht Hrid Hb).
  cbn [fst requests]. rewrite !requests_app. cbn [requests].
  rewrite !requests_app.
  rewrite (one_call_requests _ _ (get_my_ip_one_call w _)).
  rewrite (one_call_requests _ _ (find_dns_record_id_one_call w _)).
  unfold upsert_of. cbn [requests]. rewrite !requests_app.
  rewrite (one_call_requests _ _ Hu).
  replace (requests (if b then fst (verify_dns_update w (updater_of k z r) ip) else []))
    with (@nil request)
    by (destruct b; [symmetry; apply verify_dns_update_trace | reflexivity]).
  destruct (truthy rid) eqn:E; simpl; rewrite ?E; reflexivity.
Qed.

(** C4: when discovery returns no IP (a false value), the cycle logs the
    failure and returns at once; the only request of the cycle is the IP
    query, so no lookup and no upsert is sent, and nothing is resolved. *)
Theorem discovery_failure_ends_cycle (w : world) (k z r : string) (ip : pyval)
        (Hip : snd (get_my_ip w (updater_of k z r)) = Ok ip)
        (Hnone : truthy ip = false) :
  snd (main w k z r) = Ok tt
  /\ requests (fst (main w k z r)) = [ip_request (updater_of k z r)]
  /\ ~ In (lookup_request (updater_of k z r)) (requests (fst (main w k z r)))
  /\ filter is_upsert (requests (fst (main w k z r))) = []
  /\ resolutions (fst (main w k z r)) = []
  /\ In (ERROR, [Lit "Failed to get current IP address. Exiting."])
        (logs (fst (main w k z r))).
Proof.
  rewrite (main_without_ip w k z r ip Hip Hnone).
  destruct (get_my_ip_one_call w (updater_of k z r)) as (t & a & E & Ht).
  rewrite E. cbn [fst snd requests resolutions logs app].
  rewrite requests_app, resolutions_app.
  rewrite (logs_only_requests t Ht), (logs_only_resolutions t Ht). simpl.
  repeat split.
  - intros [H|[]]. discriminate H.
  - right. rewrite logs_app. apply in_or_app. right. now left.
Qed.

Lemma discovery_failure_ends_cycle_witness :
  requests (fst (main (world_of meta_unavailable lookup_one upsert_ok (Ok "203.0.113.7"))
                      "token" "zone1" "host.example.com"))
  = [ip_request the_self].
Proof.
  exact (proj1 (proj2 (discovery_failure_ends_cycle
                         (world_of meta_unavailable lookup_one upsert_ok (Ok "203.0.113.7"))
                         "token" "zone1" "host.example.com" PNone eq_refl eq_refl))).
Defined.

Lemma find_dns_record_id_failed (w : world) (self : CloudflareDNS) :
  lookup_failed (session_request w (lookup_request self)) = true ->
  snd (find_dns_record_id w self) = Ok PNone.
Proof.
  unfold lookup_failed, provider_success, find_dns_record_id, session_call,
    log_first_error.
  api_answer w st js v; auto.
  destruct v; simpl; try (destruct (st =? 200); simpl; reflexivity).
  destruct ((st =? 200) && truthy (dict_get items "success" PNone)); simpl;
    [discriminate|intros _].
  destruct (dict_get items "errors" unknown_error) as [| | |s|l|d]; simpl; auto.
  - destruct s; simpl; auto.
  - destruct l as [|x l]; simpl; auto. destruct x; simpl; auto.
Qed.

(** C1, as stated, fails: the lookup answered with an HTTP 500 and an
    error envelope is a failed lookup, and the cycle still sends an
    upsert. *)
Lemma lookup_failure_still_upserts :
  ~ (forall (w : world) (k z r : string),
       lookup_failed (session_request w (lookup_request (updater_of k z r))) = true ->
       filter is_upsert (requests (fst (main w k z r))) = []).
Proof.
  intros H.
  specialize (H world_lookup_error "token" "zone1" "host.example.com" eq_refl).
  vm_compute in H. discriminate H.
Qed.

Lemma in_logs_cons (x : level * fstring) (e : event) (t : list event) :
  In x (logs t) -> In x (logs (e :: t)).
Proof.
  destruct e; simpl; auto.
Qed.

Lemma in_logs_app_l (x : level * fstring) (t u : list event) :
  In x (logs t) -> In x (logs (t ++ u)).
Proof.
  rewrite logs_app. intros H. apply in_or_app. now left.
Qed.

Lemma in_logs_app_r (x : level * fstring) (t u : list event) :
  In x (logs u) -> In x (logs (t ++ u)).
Proof.
  rewrite logs_app. intros H. apply in_or_app. now right.
Qed.

Lemma find_dns_record_id_failed_log (w : world) (self : CloudflareDNS) :
  lookup_failed (session_request w (lookup_request self)) = true ->
  exists msg, logs (fst (find_dns_record_id w self)) = [(ERROR, msg)].
Proof.
  unfold lookup_failed, provider_success, find_dns_record_id, session_call,
    log_first_error.
  api_answer w st js v; try (intros _; eexists; reflexivity).
  destruct v; simpl;
    try (destruct (st =? 200); simpl; intros _; eexists; reflexivity).
  destruct ((st =? 200) && truthy (dict_get items "success" PNone)); simpl;
    [discriminate|intros _].
  destruct (dict_get items "errors" unknown_error) as [| | |s|l|d]; simpl;
    try (eexists; reflexivity).
  - destruct s; simpl; eexists; reflexivity.
  - destruct l as [|x l]; simpl; [eexists; reflexivity|].
    destruct x; simpl; eexists; reflexivity.
Qed.

Lemma find_dns_record_id_failure_message (w : world) (self : CloudflareDNS)
      (resp : response) (result m : pyval) :
  session_request w (lookup_request self) = Ok resp ->
  json resp = Ok result ->
  provider_success (Ok resp) = false ->
  provider_first_error result = Some m ->
  logs (fst (find_dns_record_id w self))
  = [(ERROR, [Lit "Failed to list DNS records: "; Val m])].
Proof.
  intros Hreq Hjson Hfail Hm.
  unfold find_dns_record_id, session_call.
  rewrite Hreq; simpl; rewrite Hjson; simpl.
  rewrite status_and_success_value.
  unfold provider_success in Hfail; rewrite Hjson in Hfail.
  destruct result as [| | | | |items]; try discriminate. simpl.
  rewrite Hfail; simpl.
  rewrite (log_first_error_message _ _ _ Hm). reflexivity.
Qed.

(** The log of the lookup is part of the log of a cycle that has an IP. *)
Lemma main_logs_lookup (w : world) (k z r : string) (ip : pyval)
      (x : level * fstring) :
  snd (get_my_ip w (updater_of k z r)) = Ok ip ->
  truthy ip = true ->
  In x (logs (fst (find_dns_record_id w (updater_of k z r)))) ->
  In x (logs (fst (main w k z r))).
Proof.
  intros Hip Hsome Hin.
  destruct (find_dns_record_id_one_call w (updater_of k z r)) as (t2 & rid & E2 & _).
  destruct (update_dns_record_one_call w (updater_of k z r) ip
              (if truthy rid then rid else PNone)) as (t3 & b & E3 & _).
  assert (snd (find_dns_record_id w (updater_of k z r)) = Ok rid) as Hrid
      by now rewrite E2.
  assert (snd (upsert_of w (updater_of k z r) ip rid) = Ok b) as Hb
      by (unfold upsert_of; now rewrite E3).
  rewrite (main_with_ip w k z r ip rid b Hip Hsome Hrid Hb). cbn [fst].
  do 2 apply in_logs_cons. apply in_logs_app_r.
  apply in_logs_cons. apply in_logs_app_l. exact Hin.
Qed.

(** C1, amended: a cycle that has an IP does not end at a failed lookup.
    When the lookup fails, [find_dns_record_id] logs the failure, one error
    record (with the provider's first error message when the answer has
    one), which is in the log of the cycle, and returns [None]; the cycle
    goes on and sends, after the IP query and the lookup, exactly one
    upsert, the create (POST) of the discovered IP, and no update (PUT).
    A lookup that succeeds and finds no matching record also returns [None]
    and is followed by the same create: the two are routed alike. *)
Theorem lookup_failure_routes_to_create (w : world) (k z r : string) (ip : pyval)
        (Hip : snd (get_my_ip w (updater_of k z r)) = Ok ip)
        (Hsome : truthy ip = true) :
  (lookup_failed (session_request w (lookup_request (updater_of k z r))) = true ->
   snd (find_dns_record_id w (updater_of k z r)) = Ok PNone
   /\ (exists msg,
         logs (fst (find_dns_record_id w (updater_of k z r))) = [(ERROR, msg)]
         /\ In (ERROR, msg) (logs (fst (main w k z r))))
   /\ (forall resp result m,
         session_request w (lookup_request (updater_of k z r)) = Ok resp ->
         json resp = Ok result ->
         provider_first_error result = Some m ->
         logs (fst (find_dns_record_id w (updater_of k z r)))
         = [(ERROR, [Lit "Failed to list DNS records: "; Val m])])
   /\ requests (fst (main w k z r))
      = [ ip_request (updater_of k z r); lookup_request (updater_of k z r);
          create_request (updater_of k z r) ip ]
   /\ filter is_upsert (requests (fst (main w k z r)))
      = [create_request (updater_of k z r) ip]
   /\ meth (create_request (updater_of k z r) ip) = POST)
  /\ (forall resp items records,
        session_request w (lookup_request (updater_of k z r)) = Ok resp ->
        status_code resp = 200 ->
        json resp = Ok (PDict items) ->
        truthy (dict_get items "success" PNone) = true ->
        dict_get items "result" (PList []) = PList records ->
        Forall (fun x => is_dict x = true
                         /\ record_matches (updater_of k z r) x = false) records ->
        snd (find_dns_record_id w (updater_of k z r)) = Ok PNone
        /\ requests (fst (main w k z r))
           = [ ip_request (updater_of k z r); lookup_request (updater_of k z r);
               create_request (updater_of k z r) ip ]
        /\ filter is_upsert (requests (fst (main w k z r)))
           = [create_request (updater_of k z r) ip]).
Proof.
  split.
  - intros Hfail.
    pose proof (find_dns_record_id_failed w _ Hfail) as Hnone.
    pose proof (main_requests_with_ip w k z r ip PNone Hip Hsome Hnone) as Hreq.
    cbn [truthy] in Hreq. rewrite Hreq.
    destruct (find_dns_record_id_failed_log w _ Hfail) as [msg Hlog].
    split; [exact Hnone|]. split; [|split; [|repeat split]].
    + exists msg. split; [exact Hlog|].
      apply (main_logs_lookup w k z r ip _ Hip Hsome). rewrite Hlog. now left.
    + intros resp result m Hresp Hjson Hm.
      apply (find_dns_record_id_failure_message w _ resp result m Hresp Hjson);
        [|exact Hm].
      unfold lookup_failed in Hfail. rewrite Hresp in Hfail.
      now apply negb_true_iff in Hfail.
  - intros resp items records Hresp Hst Hjson Hsucc Hres Hall.
    assert (snd (find_dns_record_id w (updater_of k z r)) = Ok PNone) as Hnone.
    { rewrite (find_dns_record_id_success w _ resp items _ Hresp Hst Hjson
                 Hsucc Hres).
      rewrite (find_loop_no_match _ _ Hall). destruct records; reflexivity. }
    pose proof (main_requests_with_ip w k z r ip PNone Hip Hsome Hnone) as Hreq.
    cbn [truthy] in Hreq. rewrite Hreq. repeat split. exact Hnone.
Qed.

Lemma lookup_failure_routes_to_create_witness :
  filter is_upsert
    (requests (fst (main world_lookup_error "token" "zone1" "host.example.com")))
  = [create_request the_self (PStr "203.0.113.7")]
  /\ logs (fst (find_dns_record_id world_lookup_error the_self))
     = [(ERROR, [Lit "Failed to list DNS records: ";
                 Val (PStr "Internal server error")])].
Proof.
  destruct (proj1 (lookup_failure_routes_to_create
                     world_lookup_error "token" "zone1" "host.example.com"
                     (PStr "203.0.113.7") eq_refl eq_refl) eq_refl)
    as (_ & _ & Hmsg & _ & Hups & _).
  split; [exact Hups|].
  exact (Hmsg (mk_response 500
                 (Ok (envelope false PNone
                        (PList [PDict [("message", PStr "Internal server error")]]))))
              _ (PStr "Internal server error") eq_refl eq_refl eq_refl).
Defined.

Lemma one_call_quiet {A} (req : request) (m : M A) :
  one_call req m -> sleeps (fst m) = [] /\ resolutions (fst m) = [].
Proof.
  intros (t & a & -> & Ht); simpl.
  now rewrite logs_only_sleeps, logs_only_resolutions.
Qed.







(** *** Exceptions *)

(** The three API operations return whatever the world answers. *)
Lemma client_operations_return (w : world) (self : CloudflareDNS) (ip rid : pyval) :
  (exists v, snd (get_my_ip w self) = Ok v)
  /\ (exists v, snd (find_dns_record_id w self) = Ok v)
  /\ (exists b, snd (update_dns_record w self ip rid) = Ok b).
Proof.
  destruct (get_my_ip_one_call w self) as (t1 & a1 & -> & _).
  destruct (find_dns_record_id_one_call w self) as (t2 & a2 & -> & _).
  destruct (update_dns_record_one_call w self ip rid) as (t3 & a3 & -> & _).
  repeat split; eexists; reflexivity.
Qed.

(** The propagation check lets through every exception of the resolver
    that is not a [socket.gaierror]. *)
Lemma verify_dns_update_raises (w : world) (self : CloudflareDNS) (ip : pyval)
      (e : exn) :
  gethostbyname w (record_name self) = Raise e ->
  is_gaierror e = false ->
  snd (verify_dns_update w self ip) = Raise e.
Proof.
  intros Hg He. rewrite verify_dns_update_outcome, Hg, He. reflexivity.
Qed.

(** C8 at its failing input: the upsert has succeeded and the resolver
    fails with an [OSError]; the check raises it, the cycle raises it, and
    it ends [run] after the first of three hourly cycles. *)
Theorem resolver_oserror_leaves_cycle :
  snd (verify_dns_update world_resolver_oserror the_self (PStr "203.0.113.7"))
  = Raise OSError
  /\ snd (main world_resolver_oserror "token" "zone1" "host.example.com")
     = Raise OSError
  /\ snd (run (fun _ => world_resolver_oserror)
              (Ok ("token", "zone1", "host.example.com")) (Some "hourly") 3 5)
     = 1%nat
  /\ snd (fst (run (fun _ => world_resolver_oserror)
                   (Ok ("token", "zone1", "host.example.com")) (Some "hourly") 3 5))
     = Raised OSError.
Proof.
  repeat split; vm_compute; reflexivity.
Qed.

(** *** The scheduler *)

Lemma run_and_reschedule_returns (ws : nat -> world) (k z r mode : string)
      (num_runs : Z) (st : sched_state) :
  snd (main (ws (invoked st)) k z r) = Ok tt ->
  run_and_reschedule ws k z r mode num_runs st
  = (fst (main (ws (invoked st)) k z r),
     Ok (if (num_runs =? 0) || (runs_left st >? 0)
         then schedule_next mode num_runs
                (mk_sched_state (runs_left st - 1) (queue st) (S (invoked st)))
         else mk_sched_state (runs_left st) (queue st) (S (invoked st)))).
Proof.
  unfold run_and_reschedule. intros H.
  destruct (main (ws (invoked st)) k z r) as [t res]; simpl in *; subst res.
  cbn [runs_left queue invoked].
  destruct ((num_runs =? 0) || (runs_left st >? 0)); simpl;
    now rewrite app_nil_r.
Qed.

(** With a run count other than 0 and [j] runs left, the scheduler runs
    [j] more cycles and returns. *)
Lemma scheduler_run_bounded (ws : nat -> world) (k z r mode : string) (num_runs : Z) :
  num_runs <> 0 ->
  (forall i, snd (main (ws i) k z r) = Ok tt) ->
  forall (j fuel c : nat), (j <= fuel)%nat ->
    scheduler_run ws k z r mode num_runs fuel
      (schedule_next mode num_runs (mk_sched_state (Z.of_nat j) [] c))
    = (later_cycles ws k z r (get_interval_seconds mode) c j, Returned,
       mk_sched_state 0 [] (c + j)).
Proof.
  intros HN Hmain.
  assert ((num_runs =? 0) = false) as E0 by now apply Z.eqb_neq.
  induction j as [|j IH]; intros fuel c Hle.
  - unfold schedule_next. cbn [runs_left]. rewrite E0. simpl.
    destruct fuel; simpl; now rewrite Nat.add_0_r.
  - destruct fuel as [|fuel]; [lia|].
    unfold schedule_next at 1. cbn [runs_left queue invoked]. rewrite E0.
    replace (Z.of_nat (S j) <=? 0) with false by (symmetry; apply Z.leb_gt; lia).
    cbn [negb andb app scheduler_run queue runs_left invoked].
    rewrite run_and_reschedule_returns by apply Hmain.
    cbn [runs_left queue invoked]. rewrite E0.
    replace (Z.of_nat (S j) >? 0) with true by (symmetry; apply Z.gtb_lt; lia).
    cbn [orb]. replace (Z.of_nat (S j) - 1) with (Z.of_nat j) by lia.
    rewrite (IH fuel (S c)) by lia.
    cbn [later_cycles]. now rewrite Nat.add_succ_r.
Qed.

(** With a run count of 0 the queue is never empty: whatever the fuel,
    the scheduler has used it all and is still running. *)
Lemma scheduler_run_unbounded (ws : nat -> world) (k z r mode : string) :
  (forall i, snd (main (ws i) k z r) = Ok tt) ->
  forall (fuel : nat) (left : Z) (c : nat),
    scheduler_run ws k z r mode 0 fuel
      (mk_sched_state left [get_interval_seconds mode] c)
    = (later_cycles ws k z r (get_interval_seconds mode) c fuel, Running,
       mk_sched_state (left - Z.of_nat fuel) [get_interval_seconds mode] (c + fuel)).
Proof.
  intros Hmain. induction fuel as [|fuel IH]; intros left c.
  - simpl. now rewrite Z.sub_0_r, Nat.add_0_r.
  - cbn [scheduler_run queue runs_left invoked].
    rewrite run_and_reschedule_returns by apply Hmain.
    cbn [runs_left queue invoked Z.eqb orb].
    unfold schedule_next. cbn [Z.eqb negb andb runs_left queue invoked app].
    rewrite IH. cbn [later_cycles].
    rewrite Nat.add_succ_r.
    replace (left - 1 - Z.of_nat fuel) with (left - Z.of_nat (S fuel)) by lia.
    reflexivity.
Qed.

Lemma truthy_nonempty (s : string) : s <> "" -> truthy (PStr s) = true.
Proof.
  intros H. simpl. now apply negb_true_iff, String.eqb_neq.
Qed.

Lemma secrets_all_set (k z r : string) :
  k <> "" -> z <> "" -> r <> "" ->
  forallb (fun s => truthy (PStr s)) [k; z; r] = true.
Proof.
  intros Hk Hz Hr. cbn [forallb].
  now rewrite !truthy_nonempty.
Qed.

Lemma scheduler_run_idle (ws : nat -> world) (k z r mode : string) (num_runs : Z)
      (fuel : nat) (left : Z) (c : nat) :
  scheduler_run ws k z r mode num_runs fuel (mk_sched_state left [] c)
  = ([], Returned, mk_sched_state left [] c).
Proof.
  destruct fuel; reflexivity.
Qed.

(** What [run] does after the secrets are there and the first cycle has
    returned, under a repeat mode. *)
Lemma run_repeat (ws : nat -> world) (k z r mode : string) (num_runs : Z)
      (fuel : nat) :
  k <> "" -> z <> "" -> r <> "" -> mode <> "" ->
  snd (main (ws O) k z r) = Ok tt ->
  run ws (Ok (k, z, r)) (Some mode) num_runs fuel
  = (let '(t, o, st) :=
       scheduler_run ws k z r mode num_runs fuel
         (schedule_next mode num_runs (mk_sched_state (num_runs - 1) [] 1)) in
     (fst (main (ws O) k z r) ++ t, o, invoked st)).
Proof.
  intros Hk Hz Hr Hm H0. unfold run.
  rewrite secrets_all_set by assumption. cbn [negb].
  destruct (main (ws O) k z r) as [t res]; simpl in H0; subst res.
  rewrite truthy_nonempty by assumption. reflexivity.
Qed.

(** C3: once the secrets are there and as long as the cycles return: with
    no repeat mode [run] makes one cycle and returns; with a repeat mode
    and a run count [N > 0] it makes [N] cycles, each of the later ones
    after the mode's interval, and returns; with a run count of 0 it never
    returns: whatever number of scheduled events one waits for, that many
    further cycles have been made and another one is waiting.  [runs_left]
    starts at [N - 1], each scheduled cycle takes one off it, and nothing is
    scheduled once it is 0 or less. *)
Theorem scheduler_repeat_count (ws : nat -> world) (k z r : string) (N : Z)
        (fuel : nat)
        (Hk : k <> "") (Hz : z <> "") (Hr : r <> "")
        (Hmain : forall i, snd (main (ws i) k z r) = Ok tt) :
  run ws (Ok (k, z, r)) None N fuel = (fst (main (ws O) k z r), Returned, 1%nat)
  /\ (forall mode : string, mode <> "" -> N > 0 -> (Z.to_nat (N - 1) <= fuel)%nat ->
        run ws (Ok (k, z, r)) (Some mode) N fuel
        = (fst (main (ws O) k z r)
             ++ later_cycles ws k z r (get_interval_seconds mode) 1 (Z.to_nat (N - 1)),
           Returned, Z.to_nat N))
  /\ (forall mode : string, mode <> "" ->
        run ws (Ok (k, z, r)) (Some mode) 0 fuel
        = (fst (main (ws O) k z r)
             ++ later_cycles ws k z r (get_interval_seconds mode) 1 fuel,
           Running, S fuel))
  /\ (forall (mode : string) (st : sched_state),
        N <> 0 -> runs_left st <= 0 -> schedule_next mode N st = st)
  /\ (forall (mode : string) (st : sched_state),
        N > 0 -> runs_left st > 0 ->
        exists st',
          snd (run_and_reschedule ws k z r mode N st) = Ok st'
          /\ runs_left st' = runs_left st - 1
          /\ invoked st' = S (invoked st)
          /\ (queue st' = queue st <-> runs_left st' <= 0)).
Proof.
  repeat match goal with |- _ /\ _ => split end.
  - unfold run. rewrite secrets_all_set by assumption. cbn [negb].
    specialize (Hmain O). destruct (main (ws O) k z r) as [t res]; simpl in *.
    now subst res.
  - intros mode Hm HN Hfuel.
    rewrite run_repeat by auto.
    replace (N - 1) with (Z.of_nat (Z.to_nat (N - 1))) at 1 by lia.
    rewrite scheduler_run_bounded by (auto; lia).
    cbn [invoked]. f_equal. lia.
  - intros mode Hm.
    rewrite run_repeat by auto.
    unfold schedule_next. cbn [Z.eqb negb andb runs_left queue invoked app].
    rewrite scheduler_run_unbounded by auto. reflexivity.
  - intros mode st HN Hleft. unfold schedule_next.
    replace (N =? 0) with false by (symmetry; apply Z.eqb_neq; lia).
    replace (runs_left st <=? 0) with true by (symmetry; apply Z.leb_le; lia).
    reflexivity.
  - intros mode st HN Hleft.
    rewrite run_and_reschedule_returns by apply Hmain.
    replace (runs_left st >? 0) with true by (symmetry; apply Z.gtb_lt; lia).
    rewrite orb_true_r. eexists; split; [reflexivity|].
    unfold schedule_next. cbn [runs_left queue invoked].
    replace (N =? 0) with false by (symmetry; apply Z.eqb_neq; lia).
    cbn [negb andb].
    destruct (runs_left st - 1 <=? 0) eqn:E; cbn [runs_left queue invoked].
    + apply Z.leb_le in E. repeat split; auto.
    + apply Z.leb_gt in E. repeat split; try lia.
      intros Hq. exfalso.
      apply (f_equal (@length Z)) in Hq. rewrite length_app in Hq. simpl in Hq. lia.
Qed.

Lemma scheduler_repeat_count_witness :
  run (fun _ => world_stale_dns) (Ok ("token", "zone1", "host.example.com"))
      (Some "min") 3 7
  = (fst (main world_stale_dns "token" "zone1" "host.example.com")
       ++ later_cycles (fun _ => world_stale_dns) "token" "zone1" "host.example.com"
            60 1 2,
     Returned, 3%nat).
Proof.
  refine (proj1 (proj2 (scheduler_repeat_count
                          (fun _ => world_stale_dns) "token" "zone1" "host.example.com"
                          3 7 _ _ _ (fun _ => eq_refl)))
            "min" _ _ _); try discriminate; try reflexivity.
  vm_compute. lia.
Defined.

(** C10: under a repeat mode, a negative run count makes [run] behave as
    the run count 1 does: one cycle is made and [run] ends, with nothing
    scheduled. *)
Theorem negative_run_count_runs_once (ws : nat -> world) (k z r mode : string)
        (N : Z) (fuel : nat)
        (Hk : k <> "") (Hz : z <> "") (Hr : r <> "") (Hmode : mode <> "")
        (HN : N < 0) :
  run ws (Ok (k, z, r)) (Some mode) N fuel = run ws (Ok (k, z, r)) (Some mode) 1 fuel
  /\ snd (run ws (Ok (k, z, r)) (Some mode) N fuel) = 1%nat
  /\ snd (fst (run ws (Ok (k, z, r)) (Some mode) N fuel)) <> Running
  /\ (snd (main (ws O) k z r) = Ok tt ->
      run ws (Ok (k, z, r)) (Some mode) N fuel
      = (fst (main (ws O) k z r), Returned, 1%nat)).
Proof.
  assert (forall n : Z, n <> 0 -> n - 1 <= 0 ->
            run ws (Ok (k, z, r)) (Some mode) n fuel
            = (fst (main (ws O) k z r),
               match snd (main (ws O) k z r) with
               | Ok _ => Returned
               | Raise e => Raised e
               end, 1%nat)) as Hrun.
  { intros n Hn0 Hn1. unfold run.
    rewrite secrets_all_set by assumption. cbn [negb].
    destruct (main (ws O) k z r) as [t [u|e]]; [|reflexivity].
    rewrite truthy_nonempty by assumption. cbn [negb].
    unfold schedule_next. cbn [runs_left].
    replace (n =? 0) with false by (symmetry; apply Z.eqb_neq; lia).
    replace (n - 1 <=? 0) with true by (symmetry; apply Z.leb_le; lia).
    cbn [negb andb]. rewrite scheduler_run_idle. cbn [invoked fst snd].
    now rewrite app_nil_r. }
  rewrite (Hrun N) by lia. rewrite (Hrun 1) by lia.
  repeat split.
  - cbn [fst snd]. destruct (snd (main (ws O) k z r)); discriminate.
  - intros ->. reflexivity.
Qed.

Lemma negative_run_count_runs_once_witness :
  snd (run (fun _ => world_stale_dns) (Ok ("token", "zone1", "host.example.com"))
           (Some "hourly") (-2) 7) = 1%nat.
Proof.
  refine (proj1 (proj2 (negative_run_count_runs_once
                          (fun _ => world_stale_dns) "token" "zone1" "host.example.com"
                          "hourly" (-2) 7 _ _ _ _ _)));
    try discriminate; reflexivity.
Defined.

(** ** Further properties of the client *)

(** X1: [get_my_ip] returns the [clientIp] field of the body when the
    answer is HTTP 200 with a JSON object ([None] when the object has no
    such field), and [None] in every other case: an exception of the
    session, another status, a body that is not JSON or not an object.  No
    exception leaves it. *)
Theorem get_my_ip_returns_client_ip (w : world) (self : CloudflareDNS) :
  snd (get_my_ip w self)
  = Ok match session_request w (ip_request self) with
       | Ok resp =>
           if status_code resp =? 200 then
             match json resp with
             | Ok (PDict items) =>
                 match dict_find items "clientIp" with
                 | Some ip => ip
                 | None => PNone
                 end
             | _ => PNone
             end
           else PNone
       | Raise _ => PNone
       end.
Proof.
  unfold get_my_ip, session_call.
  destruct (session_request w _) as [[st js]|e]; simpl; [|reflexivity].
  destruct (st =? 200); simpl; [|reflexivity].
  destruct js as [v|e]; simpl; [|reflexivity].
  destruct v; simpl; try reflexivity.
  destruct (dict_find items "clientIp") as [ip|] eqn:E.
  - now rewrite (dict_find_get _ _ PNone _ E).
  - f_equal. clear -E. induction items as [|[k x] rest IH]; simpl in *; auto.
    destruct (k =? "clientIp")%string; [discriminate | auto].
Qed.

(** X2: on a status other than 200 [get_my_ip] does not look at the body:
    whatever it holds, the result is [None], and the one log record is the
    error with the status code. *)
Theorem get_my_ip_other_status (w : world) (self : CloudflareDNS) (resp : response)
        (Hreq : session_request w (ip_request self) = Ok resp)
        (Hstatus : status_code resp <> 200) :
  get_my_ip w self
  = ([ Request (ip_request self);
       Log ERROR [Lit "Failed to get IP: HTTP "; Val (PInt (status_code resp))] ],
     Ok PNone).
Proof.
  unfold get_my_ip, session_call. rewrite Hreq. simpl.
  apply Z.eqb_neq in Hstatus. rewrite Hstatus. reflexivity.
Qed.

Lemma get_my_ip_other_status_witness :
  snd (get_my_ip world_meta_forbidden the_self) = Ok PNone.
Proof.
  rewrite (get_my_ip_other_status world_meta_forbidden the_self
             meta_forbidden_response eq_refl);
    [reflexivity | discriminate].
Defined.

(** X3: each of the three API operations sends exactly one request, the
    one of its kind, and returns a value whatever the session answers: no
    exception leaves it, and it neither sleeps nor resolves a name. *)
Theorem client_operations_one_request (w : world) (self : CloudflareDNS)
        (ip rid : pyval) :
  (requests (fst (get_my_ip w self)) = [ip_request self]
   /\ exists v, snd (get_my_ip w self) = Ok v)
  /\ (requests (fst (find_dns_record_id w self)) = [lookup_request self]
      /\ exists v, snd (find_dns_record_id w self) = Ok v)
  /\ (requests (fst (update_dns_record w self ip rid))
      = [if truthy rid then update_request self ip rid else create_request self ip]
      /\ exists b, snd (update_dns_record w self ip rid) = Ok b)
  /\ sleeps (fst (get_my_ip w self) ++ fst (find_dns_record_id w self)
             ++ fst (update_dns_record w self ip rid)) = []
  /\ resolutions (fst (get_my_ip w self) ++ fst (find_dns_record_id w self)
                  ++ fst (update_dns_record w self ip rid)) = [].
Proof.
  pose proof (get_my_ip_one_call w self) as H1.
  pose proof (find_dns_record_id_one_call w self) as H2.
  pose proof (update_dns_record_one_call w self ip rid) as H3.
  destruct (one_call_quiet _ _ H1) as [S1 R1].
  destruct (one_call_quiet _ _ H2) as [S2 R2].
  destruct (one_call_quiet _ _ H3) as [S3 R3].
  rewrite !sleeps_app, !resolutions_app, S1, S2, S3, R1, R2, R3.
  rewrite (one_call_requests _ _ H1), (one_call_requests _ _ H2),
    (one_call_requests _ _ H3).
  destruct H1 as (t1 & a1 & -> & _), H2 as (t2 & a2 & -> & _),
    H3 as (t3 & a3 & -> & _).
  repeat split; eexists; reflexivity.
Qed.

(** X4: when the session raises (no connection, a timeout), each operation
    logs the exception as an error and gives its failure value: [None] for
    the IP and for the record id, [False] for the upsert. *)
Theorem session_exception_is_failure_value (w : world) (self : CloudflareDNS)
        (ip rid : pyval) (e : exn) :
  (session_request w (ip_request self) = Raise e ->
   get_my_ip w self
   = ([Request (ip_request self); Log ERROR [Lit "Error getting IP: "; ExcStr e]],
      Ok PNone))
  /\ (session_request w (lookup_request self) = Raise e ->
      find_dns_record_id w self
      = ([ Request (lookup_request self);
           Log ERROR [Lit "Error finding DNS record: "; ExcStr e] ],
         Ok PNone))
  /\ (session_request w (if truthy rid then update_request self ip rid
                         else create_request self ip) = Raise e ->
      update_dns_record w self ip rid
      = ([ Request (if truthy rid then update_request self ip rid
                    else create_request self ip);
           Log ERROR [Lit "Error updating DNS record: "; ExcStr e] ],
         Ok false)).
Proof.
  repeat split; intros H.
  - unfold get_my_ip, session_call. now rewrite H.
  - unfold find_dns_record_id, session_call. now rewrite H.
  - unfold update_dns_record, session_call.
    destruct (truthy rid); cbv zeta; now rewrite H.
Qed.

Lemma session_exception_is_failure_value_witness :
  snd (update_dns_record
         (world_of meta_ok lookup_one (Raise RequestException) (Ok "203.0.113.7"))
         the_self (PStr "203.0.113.7") (PStr "X"))
  = Ok false.
Proof.
  rewrite (proj2 (proj2 (session_exception_is_failure_value
                           (world_of meta_ok lookup_one (Raise RequestException)
                                     (Ok "203.0.113.7"))
                           the_self (PStr "203.0.113.7") (PStr "X") RequestException))
             eq_refl).
  reflexivity.
Defined.

Lemma dict_find_none_get (items : list (string * pyval)) (key : string) (d : pyval) :
  dict_find items key = None -> dict_get items key d = d.
Proof.
  induction items as [|[k x] rest IH]; simpl; [reflexivity|].
  destruct (k =? key)%string; [discriminate | exact IH].
Qed.

(** X5: a failed upsert answer (a JSON object, but not HTTP 200 with a
    true [success]) that has no [errors] field is logged with the message
    "Unknown error"; the result is [False]. *)
Theorem upsert_failure_without_errors_field (w : world) (self : CloudflareDNS)
        (ip rid : pyval) (resp : response) (items : list (string * pyval))
        (Hreq : session_request w (if truthy rid then update_request self ip rid
                                   else create_request self ip) = Ok resp)
        (Hjson : json resp = Ok (PDict items))
        (Hfail : provider_success (Ok resp) = false)
        (Hnone : dict_find items "errors" = None) :
  update_dns_record w self ip rid
  = ([ Request (if truthy rid then update_request self ip rid
                else create_request self ip);
       Log ERROR [ Lit (if truthy rid then "Failed to update DNS record: "
                        else "Failed to create DNS record: ");
                   Val (PStr "Unknown error") ] ],
     Ok false).
Proof.
  unfold update_dns_record, session_call.
  unfold provider_success in Hfail. rewrite Hjson in Hfail.
  destruct (truthy rid); cbv zeta; rewrite Hreq; simpl; rewrite Hjson; simpl;
    rewrite status_and_success_value, Hfail; simpl;
    unfold log_first_error; simpl;
    rewrite (dict_find_none_get _ _ unknown_error Hnone); reflexivity.
Qed.

Lemma upsert_failure_without_errors_field_witness :
  logs (fst (update_dns_record
               (world_of meta_ok lookup_one
                         (Ok (mk_response 502 (Ok (PDict [("success", PBool false)]))))
                         (Ok "203.0.113.7"))
               the_self (PStr "203.0.113.7") PNone))
  = [(ERROR, [Lit "Failed to create DNS record: "; Val (PStr "Unknown error")])].
Proof.
  rewrite (upsert_failure_without_errors_field
             (world_of meta_ok lookup_one
                       (Ok (mk_response 502 (Ok (PDict [("success", PBool false)]))))
                       (Ok "203.0.113.7"))
             the_self (PStr "203.0.113.7") PNone
             (mk_response 502 (Ok (PDict [("success", PBool false)])))
             [("success", PBool false)] eq_refl eq_refl eq_refl eq_refl).
  reflexivity.
Defined.

(** X6: a failed upsert answer whose [errors] list is empty has no first
    error: taking it raises [IndexError], which the operation catches; the
    log has the record of that exception, no "Failed to ..." record, and the
    result is [False]. *)
Theorem upsert_failure_with_empty_errors (w : world) (self : CloudflareDNS)
        (ip rid : pyval) (resp : response) (items : list (string * pyval))
        (Hreq : session_request w (if truthy rid then update_request self ip rid
                                   else create_request self ip) = Ok resp)
        (Hjson : json resp = Ok (PDict items))
        (Hfail : provider_success (Ok resp) = false)
        (Hempty : dict_find items "errors" = Some (PList [])) :
  update_dns_record w self ip rid
  = ([ Request (if truthy rid then update_request self ip rid
                else create_request self ip);
       Log ERROR [Lit "Error updating DNS record: "; ExcStr IndexError] ],
     Ok false).
Proof.
  unfold update_dns_record, session_call.
  unfold provider_success in Hfail. rewrite Hjson in Hfail.
  destruct (truthy rid); cbv zeta; rewrite Hreq; simpl; rewrite Hjson; simpl;
    rewrite status_and_success_value, Hfail; simpl;
    unfold log_first_error; simpl;
    rewrite (dict_find_get _ _ unknown_error _ Hempty); reflexivity.
Qed.

Lemma upsert_failure_with_empty_errors_witness :
  logs (fst (update_dns_record
               (world_of meta_ok lookup_one
                         (Ok (mk_response 200 (Ok (envelope false PNone (PList [])))))
                         (Ok "203.0.113.7"))
               the_self (PStr "203.0.113.7") (PStr "X")))
  = [(ERROR, [Lit "Error updating DNS record: "; ExcStr IndexError])].
Proof.
  rewrite (upsert_failure_with_empty_errors
             (world_of meta_ok lookup_one
                       (Ok (mk_response 200 (Ok (envelope false PNone (PList [])))))
                       (Ok "203.0.113.7"))
             the_self (PStr "203.0.113.7") (PStr "X")
             (mk_response 200 (Ok (envelope false PNone (PList []))))
             [("success", PBool false); ("errors", PList []); ("result", PNone)]
             eq_refl eq_refl eq_refl eq_refl).
  reflexivity.
Defined.

(** X7: on a successful lookup answer whose [result] is false ([null], an
    empty list, an empty object, also a missing field), no record is looked
    at: the result is [None] and the log has the warning that no record
    carries the name. *)
Theorem find_dns_record_id_no_result (w : world) (self : CloudflareDNS)
        (resp : response) (items : list (string * pyval))
        (Hreq : session_request w (lookup_request self) = Ok resp)
        (Hstatus : status_code resp = 200)
        (Hjson : json resp = Ok (PDict items))
        (Hsuccess : truthy (dict_get items "success" PNone) = true)
        (Hresult : truthy (dict_get items "result" (PList [])) = false) :
  find_dns_record_id w self
  = ([ Request (lookup_request self);
       Log WARNING [Lit "No DNS records found with name ";
                    Val (PStr (record_name self))] ],
     Ok PNone).
Proof.
  unfold find_dns_record_id, session_call.
  rewrite Hreq. destruct resp as [st js]; simpl in *. subst st js. simpl.
  rewrite ?status_and_success_value. simpl.
  rewrite Hsuccess, Hresult. reflexivity.
Qed.

Lemma find_dns_record_id_no_result_witness :
  snd (find_dns_record_id
         (world_of meta_ok
                   (Ok (mk_response 200 (Ok (envelope true PNone (PList [])))))
                   upsert_ok (Ok "203.0.113.7"))
         the_self)
  = Ok PNone.
Proof.
  rewrite (find_dns_record_id_no_result
             (world_of meta_ok
                       (Ok (mk_response 200 (Ok (envelope true PNone (PList [])))))
                       upsert_ok (Ok "203.0.113.7"))
             the_self
             (mk_response 200 (Ok (envelope true PNone (PList []))))
             [("success", PBool true); ("errors", PList []); ("result", PNone)]
             eq_refl eq_refl eq_refl eq_refl eq_refl).
  reflexivity.
Defined.

Lemma find_loop_bad_element (self : CloudflareDNS) (before after : list pyval)
      (bad : pyval) :
  Forall (fun r => is_dict r = true /\ record_matches self r = false) before ->
  is_dict bad = false ->
  find_loop self (before ++ bad :: after) = ([], Raise AttributeError).
Proof.
  intros Hb Hbad. induction Hb as [|r rest [Hd Hr] _ IH].
  - destruct bad; try discriminate; reflexivity.
  - destruct r; try discriminate. simpl in *.
    destruct (py_eq_str (dict_get items "type" PNone) "A"); simpl in *;
      rewrite ?Hr, IH; reflexivity.
Qed.

(** X8: a lookup result is scanned in order, and an element that is not
    an object stops the scan: it has no [get], the [AttributeError] is
    caught, and the result is [None] with the error logged, whatever comes
    after that element, a matching A record included. *)
Theorem find_dns_record_id_bad_element (w : world) (self : CloudflareDNS)
        (resp : response) (items : list (string * pyval))
        (before after : list pyval) (bad : pyval)
        (Hreq : session_request w (lookup_request self) = Ok resp)
        (Hstatus : status_code resp = 200)
        (Hjson : json resp = Ok (PDict items))
        (Hsuccess : truthy (dict_get items "success" PNone) = true)
        (Hresult : dict_get items "result" (PList []) = PList (before ++ bad :: after))
        (Hbefore : Forall (fun r => is_dict r = true /\ record_matches self r = false)
                          before)
        (Hbad : is_dict bad = false) :
  find_dns_record_id w self
  = ([ Request (lookup_request self);
       Log ERROR [Lit "Error finding DNS record: "; ExcStr AttributeError] ],
     Ok PNone).
Proof.
  unfold find_dns_record_id, session_call.
  rewrite Hreq. destruct resp as [st js]; simpl in *. subst st js. simpl.
  rewrite ?status_and_success_value. simpl.
  rewrite Hsuccess, Hresult. simpl.
  replace (match before ++ bad :: after with [] => false | _ :: _ => true end)
    with true by (destruct before; reflexivity).
  cbn [negb]. rewrite (find_loop_bad_element self before after bad Hbefore Hbad).
  reflexivity.
Qed.

Lemma find_dns_record_id_bad_element_witness :
  snd (find_dns_record_id
         (world_of meta_ok lookup_bad_element upsert_ok (Ok "203.0.113.7")) the_self)
  = Ok PNone.
Proof.
  rewrite (find_dns_record_id_bad_element
             (world_of meta_ok lookup_bad_element upsert_ok (Ok "203.0.113.7"))
             the_self
             (mk_response 200
                (Ok (envelope true
                       (PList [PStr "oops"; a_record "Y" "host.example.com"])
                       (PList []))))
             [("success", PBool true); ("errors", PList []);
              ("result", PList [PStr "oops"; a_record "Y" "host.example.com"])]
             [] [a_record "Y" "host.example.com"] (PStr "oops")
             eq_refl eq_refl eq_refl eq_refl eq_refl (Forall_nil _) eq_refl).
  reflexivity.
Defined.

(** X9: the first matching record decides alone.  When its [id] is missing
    or false (null, empty), [find_dns_record_id] returns that value, later
    matching records are not looked at, and the cycle, which has an IP,
    sends a create (POST) and no update. *)
Theorem first_match_without_id_creates (w : world) (k z r : string) (ip : pyval)
        (resp : response) (items first : list (string * pyval))
        (before after : list pyval)
        (Hip : snd (get_my_ip w (updater_of k z r)) = Ok ip)
        (Hsome : truthy ip = true)
        (Hreq : session_request w (lookup_request (updater_of k z r)) = Ok resp)
        (Hstatus : status_code resp = 200)
        (Hjson : json resp = Ok (PDict items))
        (Hsuccess : truthy (dict_get items "success" PNone) = true)
        (Hresult : dict_get items "result" (PList [])
                   = PList (before ++ PDict first :: after))
        (Hbefore : Forall (fun x => is_dict x = true
                                    /\ record_matches (updater_of k z r) x = false)
                          before)
        (Hmatch : record_matches (updater_of k z r) (PDict first) = true)
        (Hid : truthy (dict_get first "id" PNone) = false) :
  snd (find_dns_record_id w (updater_of k z r)) = Ok (dict_get first "id" PNone)
  /\ requests (fst (main w k z r))
     = [ ip_request (updater_of k z r); lookup_request (updater_of k z r);
         create_request (updater_of k z r) ip ].
Proof.
  assert (snd (find_dns_record_id w (updater_of k z r))
          = Ok (dict_get first "id" PNone)) as Hfind.
  { rewrite (find_dns_record_id_success w _ resp items _ Hreq Hstatus Hjson
               Hsuccess Hresult).
    rewrite (find_loop_first_match _ before after first Hbefore Hmatch).
    destruct before; reflexivity. }
  split; [exact Hfind|].
  rewrite (main_requests_with_ip w k z r ip _ Hip Hsome Hfind).
  now rewrite Hid.
Qed.

Lemma first_match_without_id_creates_witness :
  requests (fst (main (world_of meta_ok lookup_no_id upsert_ok (Ok "203.0.113.7"))
                      "token" "zone1" "host.example.com"))
  = [ ip_request the_self; lookup_request the_self;
      create_request the_self (PStr "203.0.113.7") ].
Proof.
  refine (proj2 (first_match_without_id_creates
                   (world_of meta_ok lookup_no_id upsert_ok (Ok "203.0.113.7"))
                   "token" "zone1" "host.example.com" (PStr "203.0.113.7")
                   (mk_response 200
                      (Ok (envelope true
                             (PList [ PDict [("type", PStr "A");
                                             ("name", PStr "host.example.com")];
                                      a_record "Y" "host.example.com" ])
                             (PList []))))
                   [("success", PBool true); ("errors", PList []);
                    ("result",
                     PList [ PDict [("type", PStr "A");
                                    ("name", PStr "host.example.com")];
                             a_record "Y" "host.example.com" ])]
                   [("type", PStr "A"); ("name", PStr "host.example.com")]
                   [] [a_record "Y" "host.example.com"]
                   eq_refl eq_refl eq_refl eq_refl eq_refl eq_refl eq_refl
                   (Forall_nil _) eq_refl eq_refl)).
Defined.

(** X10: the log tells a failed lookup from an empty one, which the
    returned [None] does not: a failed lookup leaves exactly one record, an
    error; a successful answer with a list of records none of which matches
    leaves exactly one record, a warning. *)
Theorem lookup_log_tells_failure_from_not_found (w : world) (self : CloudflareDNS) :
  (lookup_failed (session_request w (lookup_request self)) = true ->
   exists msg, logs (fst (find_dns_record_id w self)) = [(ERROR, msg)])
  /\ (forall resp items records,
        session_request w (lookup_request self) = Ok resp ->
        status_code resp = 200 ->
        json resp = Ok (PDict items) ->
        truthy (dict_get items "success" PNone) = true ->
        dict_get items "result" (PList []) = PList records ->
        Forall (fun r => is_dict r = true /\ record_matches self r = false) records ->
        exists msg, logs (fst (find_dns_record_id w self)) = [(WARNING, msg)]).
Proof.
  split.
  - unfold lookup_failed, provider_success, find_dns_record_id, session_call,
      log_first_error.
    api_answer w st js v; try (intros _; eexists; reflexivity).
    destruct v; simpl;
      try (destruct (st =? 200); simpl; intros _; eexists; reflexivity).
    destruct ((st =? 200) && truthy (dict_get items "success" PNone)); simpl;
      [discriminate|intros _].
    destruct (dict_get items "errors" unknown_error) as [| | |s|l|d]; simpl;
      try (eexists; reflexivity).
    + destruct s; simpl; eexists; reflexivity.
    + destruct l as [|x l]; simpl; [eexists; reflexivity|].
      destruct x; simpl; eexists; reflexivity.
  - intros resp items records Hreq Hst Hjson Hsucc Hres Hall.
    unfold find_dns_record_id, session_call.
    rewrite Hreq. destruct resp as [st js]; simpl in *. subst st js. simpl.
    rewrite ?status_and_success_value. simpl.
    rewrite Hsucc, Hres. simpl.
    destruct records as [|x rest]; [eexists; reflexivity|].
    cbn [negb]. rewrite (find_loop_no_match self _ Hall). eexists; reflexivity.
Qed.

Lemma lookup_log_tells_failure_from_not_found_witness :
  exists msg,
    logs (fst (find_dns_record_id world_lookup_error the_self)) = [(ERROR, msg)].
Proof.
  exact (proj1 (lookup_log_tells_failure_from_not_found world_lookup_error the_self)
           eq_refl).
Defined.

(** ** Further properties of the cycle *)

Lemma py_eq_str_true (v : pyval) (s : string) :
  py_eq_str v s = true <-> v = PStr s.
Proof.
  split.
  - destruct v; simpl; try discriminate. intros H.
    apply String.eqb_eq in H. now subst.
  - intros ->. simpl. apply String.eqb_refl.
Qed.

(** X11: the propagation check first waits 5 seconds, then resolves the
    record name once, then at most logs; it sends no request.  Its result is
    [True] exactly when the name resolves and the address is the expected
    one, as a str. *)
Theorem verify_dns_update_waits_then_resolves (w : world) (self : CloudflareDNS)
        (expected_ip : pyval) :
  (exists tail,
      fst (verify_dns_update w self expected_ip)
      = Sleep 5 :: GetHostByName (record_name self) :: tail
      /\ forallb is_log tail = true)
  /\ requests (fst (verify_dns_update w self expected_ip)) = []
  /\ (snd (verify_dns_update w self expected_ip) = Ok true
      <-> exists resolved_ip,
            gethostbyname w (record_name self) = Ok resolved_ip
            /\ expected_ip = PStr resolved_ip).
Proof.
  split; [|split].
  - unfold verify_dns_update. simpl.
    destruct (gethostbyname w (record_name self)) as [a|e]; simpl.
    + destruct (py_eq_str expected_ip a); simpl; eexists; split; reflexivity.
    + destruct (is_gaierror e); simpl; eexists; split; reflexivity.
  - apply verify_dns_update_trace.
  - rewrite verify_dns_update_outcome.
    destruct (gethostbyname w (record_name self)) as [a|e].
    + split.
      * intros H. exists a. split; [reflexivity|].
        apply py_eq_str_true. congruence.
      * intros (a' & Ha & ->). injection Ha as <-.
        f_equal. apply py_eq_str_true. reflexivity.
    + split.
      * destruct (is_gaierror e); discriminate.
      * intros (a' & Ha & _). discriminate.
Qed.

Lemma logs_are_inner (t : list event) :
  forallb is_log t = true -> forallb inner_event t = true.
Proof.
  induction t as [|[] t IH]; simpl; auto; discriminate.
Qed.

Lemma one_call_inner {A} (req : request) (m : M A) :
  one_call req m -> forallb inner_event (fst m) = true.
Proof.
  intros (t & a & -> & Ht). simpl. now apply logs_are_inner.
Qed.

Lemma verify_dns_update_inner (w : world) (self : CloudflareDNS) (ip : pyval) :
  forallb inner_event (fst (verify_dns_update w self ip)) = true.
Proof.
  unfold verify_dns_update. simpl.
  destruct (gethostbyname w (record_name self)) as [a|e]; simpl.
  - destruct (py_eq_str ip a); reflexivity.
  - destruct (is_gaierror e); reflexivity.
Qed.

(** The values the operations of a cycle return, and the cycle written
    out with them. *)
Lemma main_cases (w : world) (k z r : string) :
  exists ip rid b,
    snd (get_my_ip w (updater_of k z r)) = Ok ip
    /\ snd (find_dns_record_id w (updater_of k z r)) = Ok rid
    /\ snd (upsert_of w (updater_of k z r) ip rid) = Ok b.
Proof.
  destruct (get_my_ip_one_call w (updater_of k z r)) as (t1 & ip & E1 & _).
  destruct (find_dns_record_id_one_call w (updater_of k z r)) as (t2 & rid & E2 & _).
  destruct (update_dns_record_one_call w (updater_of k z r) ip
              (if truthy rid then rid else PNone)) as (t3 & b & E3 & _).
  exists ip, rid, b. unfold upsert_of. now rewrite E1, E2, E3.
Qed.

Lemma main_requests_cases (w : world) (k z r : string) :
  exists ip rid,
    snd (get_my_ip w (updater_of k z r)) = Ok ip
    /\ snd (find_dns_record_id w (updater_of k z r)) = Ok rid
    /\ requests (fst (main w k z r))
       = if truthy ip then
           [ ip_request (updater_of k z r); lookup_request (updater_of k z r);
             if truthy rid then update_request (updater_of k z r) ip rid
             else create_request (updater_of k z r) ip ]
         else [ip_request (updater_of k z r)].
Proof.
  destruct (main_cases w k z r) as (ip & rid & b & Hip & Hrid & Hb).
  exists ip, rid. split; [exact Hip|]. split; [exact Hrid|].
  destruct (truthy ip) eqn:Et.
  - exact (main_requests_with_ip w k z r ip rid Hip Et Hrid).
  - rewrite (main_without_ip w k z r ip Hip Et).
    cbn [fst requests]. rewrite requests_app.
    rewrite (one_call_requests _ _ (get_my_ip_one_call w _)). reflexivity.
Qed.

(** X12: the session of a cycle is opened once, before anything is sent,
    and closed once, as the last thing of the cycle, on every way out of
    it, an exception included; every request, wait and resolution of the
    cycle lies between the two. *)
Theorem cycle_session_is_scoped (w : world) (k z r : string) :
  exists body,
    fst (main w k z r)
    = Log INFO [Lit "["; Now; Lit "] Running scheduled CF update..."]
        :: SessionOpen :: body ++ [SessionClose]
    /\ forallb inner_event body = true.
Proof.
  destruct (main_cases w k z r) as (ip & rid & b & Hip & Hrid & Hb).
  pose proof (one_call_inner _ _ (get_my_ip_one_call w (updater_of k z r))) as I1.
  pose proof (one_call_inner _ _ (find_dns_record_id_one_call w (updater_of k z r)))
    as I2.
  pose proof (one_call_inner _ _ (update_dns_record_one_call w (updater_of k z r) ip
                                    (if truthy rid then rid else PNone))) as I3.
  pose proof (verify_dns_update_inner w (updater_of k z r) ip) as I4.
  destruct (truthy ip) eqn:Et.
  - rewrite (main_with_ip w k z r ip rid b Hip Et Hrid Hb). cbn [fst].
    eexists (fst (get_my_ip w (updater_of k z r))
             ++ Log INFO [Lit "Current IP address: "; Val ip]
             :: fst (find_dns_record_id w (updater_of k z r))
             ++ Log INFO _
             :: fst (upsert_of w (updater_of k z r) ip rid)
             ++ (if b then fst (verify_dns_update w (updater_of k z r) ip) else [])).
    split.
    + repeat (rewrite <- ?app_assoc; rewrite <- ?app_comm_cons). reflexivity.
    + unfold upsert_of.
      rewrite !forallb_app; cbn [forallb inner_event];
        rewrite !forallb_app; cbn [forallb inner_event];
        rewrite !forallb_app, I1, I2, I3.
      destruct b; [rewrite I4|]; reflexivity.
  - rewrite (main_without_ip w k z r ip Hip Et). cbn [fst].
    exists (fst (get_my_ip w (updater_of k z r))
            ++ [Log ERROR [Lit "Failed to get current IP address. Exiting."]]).
    split.
    + rewrite <- app_assoc. reflexivity.
    + rewrite forallb_app, I1. reflexivity.
Qed.

(** X13: a cycle sends the IP query alone, or the IP query, the lookup and
    one upsert, in this order.  The upsert carries the address the IP query
    returned; it is the update of the id the lookup returned when that id
    is true, and the create otherwise.  So a cycle never sends more than one
    upsert, and none before the lookup. *)
Theorem cycle_requests_in_order (w : world) (k z r : string) :
  (exists ip rid,
      snd (get_my_ip w (updater_of k z r)) = Ok ip
      /\ snd (find_dns_record_id w (updater_of k z r)) = Ok rid
      /\ requests (fst (main w k z r))
         = if truthy ip then
             [ ip_request (updater_of k z r); lookup_request (updater_of k z r);
               if truthy rid then update_request (updater_of k z r) ip rid
               else create_request (updater_of k z r) ip ]
           else [ip_request (updater_of k z r)])
  /\ (length (filter is_upsert (requests (fst (main w k z r)))) <= 1)%nat.
Proof.
  destruct (main_requests_cases w k z r) as (ip & rid & Hip & Hrid & Hreq).
  split; [exists ip, rid; auto|].
  rewrite Hreq. destruct (truthy ip); [|simpl; lia].
  destruct (truthy rid); simpl; lia.
Qed.

(** X14: every request of a cycle, the IP query included, carries the
    session's headers, the bearer token and the JSON content type, and the
    timeout of 30 seconds. *)
Theorem cycle_requests_carry_token_and_timeout (w : world) (k z r : string)
        (q : request) (Hq : In q (requests (fst (main w k z r)))) :
  headers q = [ ("Authorization", ("Bearer " ++ k)%string);
                ("Content-Type", "application/json") ]
  /\ timeout q = 30.
Proof.
  destruct (main_requests_cases w k z r) as (ip & rid & _ & _ & Hreq).
  rewrite Hreq in Hq.
  destruct (truthy ip); [destruct (truthy rid)|]; simpl in Hq;
    repeat (destruct Hq as [<-|Hq]; [split; reflexivity|]); contradiction.
Qed.

Lemma cycle_requests_carry_token_and_timeout_witness :
  headers (ip_request the_self)
  = [("Authorization", "Bearer token"); ("Content-Type", "application/json")]
  /\ timeout (ip_request the_self) = 30.
Proof.
  apply (cycle_requests_carry_token_and_timeout
           world_stale_dns "token" "zone1" "host.example.com" (ip_request the_self)).
  left. reflexivity.
Defined.

(** ** Further properties of the scheduler *)

(** X15: without usable secrets ([get_secrets] raised, or one of the three
    values is empty) [run] logs one fatal record and returns: no cycle is
    made and nothing is sent, whatever the mode and the run count. *)
Theorem run_needs_secrets (ws : nat -> world) (secrets : res (string * string * string))
        (mode : option string) (num_runs : Z) (fuel : nat)
        (Hsecrets : usable_secrets secrets = false) :
  exists msg, run ws secrets mode num_runs fuel = ([Log FATAL msg], Returned, O).
Proof.
  unfold run. destruct secrets as [[[k z] r]|e]; [|eexists; reflexivity].
  cbn [usable_secrets] in Hsecrets. rewrite Hsecrets. eexists; reflexivity.
Qed.

Lemma run_needs_secrets_witness :
  exists msg,
    run (fun _ => world_stale_dns) (Ok ("token", "", "host.example.com"))
        (Some "hourly") 0 9
    = ([Log FATAL msg], Returned, O).
Proof.
  exact (run_needs_secrets (fun _ => world_stale_dns)
           (Ok ("token", "", "host.example.com")) (Some "hourly") 0 9 eq_refl).
Defined.

(** X16: an empty mode string is no repeat mode: [run] does with it what
    it does with [None]. *)
Theorem run_empty_mode_is_no_mode (ws : nat -> world)
        (secrets : res (string * string * string)) (num_runs : Z) (fuel : nat) :
  run ws secrets (Some "") num_runs fuel = run ws secrets None num_runs fuel.
Proof.
  unfold run. destruct secrets as [[[k z] r]|e]; [|reflexivity].
  destruct (negb (forallb (fun s => truthy (PStr s)) [k; z; r])); [reflexivity|].
  destruct (main (ws O) k z r) as [t [u|e]]; reflexivity.
Qed.

(** X17: the interval is never negative and never more than a day, and it
    is 0 exactly for the modes that are not "daily", "hourly" or "min". *)
Theorem get_interval_seconds_range (mode : string) :
  0 <= get_interval_seconds mode <= 86400
  /\ (get_interval_seconds mode = 0
      <-> mode <> "daily" /\ mode <> "hourly" /\ mode <> "min").
Proof.
  unfold get_interval_seconds.
  destruct (String.eqb_spec mode "daily") as [->|Hd].
  { split; [lia|]. split; [discriminate | intros (H & _); now elim H]. }
  destruct (String.eqb_spec mode "hourly") as [->|Hh].
  { split; [lia|]. split; [discriminate | intros (_ & H & _); now elim H]. }
  destruct (String.eqb_spec mode "min") as [->|Hm].
  { split; [lia|]. split; [discriminate | intros (_ & _ & H); now elim H]. }
  split; [lia|]. split; auto.
Qed.

Lemma delays_app (t u : list event) :
  delays (t ++ u) = delays t ++ delays u.
Proof.
  induction t as [|[] t IH]; simpl; auto. now rewrite IH.
Qed.

Lemma inner_no_delays (t : list event) :
  forallb inner_event t = true -> delays t = [].
Proof.
  induction t as [|[] t IH]; simpl; auto; discriminate.
Qed.

Lemma main_no_delays (w : world) (k z r : string) :
  delays (fst (main w k z r)) = [].
Proof.
  destruct (main_cases w k z r) as (ip & rid & b & Hip & Hrid & Hb).
  pose proof (inner_no_delays _
                (one_call_inner _ _ (get_my_ip_one_call w (updater_of k z r)))) as D1.
  pose proof (inner_no_delays _
                (one_call_inner _ _ (find_dns_record_id_one_call w (updater_of k z r))))
    as D2.
  pose proof (inner_no_delays _
                (one_call_inner _ _ (update_dns_record_one_call w (updater_of k z r) ip
                                       (if truthy rid then rid else PNone)))) as D3.
  pose proof (inner_no_delays _ (verify_dns_update_inner w (updater_of k z r) ip)) as D4.
  destruct (truthy ip) eqn:Et.
  - rewrite (main_with_ip w k z r ip rid b Hip Et Hrid Hb). cbn [fst delays].
    unfold upsert_of.
    rewrite delays_app; cbn [delays]; rewrite delays_app; cbn [delays];
      rewrite !delays_app, D1, D2, D3.
    destruct b; [rewrite D4|]; reflexivity.
  - rewrite (main_without_ip w k z r ip Hip Et). cbn [fst delays].
    now rewrite delays_app, D1.
Qed.

Lemma later_cycles_delays (ws : nat -> world) (k z r : string) (interval : Z)
      (first count : nat) :
  delays (later_cycles ws k z r interval first count) = repeat interval count.
Proof.
  revert first. induction count as [|n IH]; intros first; [reflexivity|].
  cbn [later_cycles delays repeat].
  now rewrite delays_app, main_no_delays, IH.
Qed.

(** X18: under a repeat mode, with cycles that return, the scheduler waits
    once before each cycle after the first, each time for the mode's
    interval: [N - 1] waits for a run count [N > 0], and for the run count 0
    as many waits as cycles were scheduled.  For a mode outside the table
    these are waits of 0 seconds. *)
Theorem run_waits_between_cycles (ws : nat -> world) (k z r mode : string) (N : Z)
        (fuel : nat)
        (Hk : k <> "") (Hz : z <> "") (Hr : r <> "") (Hmode : mode <> "")
        (Hmain : forall i, snd (main (ws i) k z r) = Ok tt) :
  (N > 0 -> (Z.to_nat (N - 1) <= fuel)%nat ->
   delays (fst (fst (run ws (Ok (k, z, r)) (Some mode) N fuel)))
   = repeat (get_interval_seconds mode) (Z.to_nat (N - 1)))
  /\ delays (fst (fst (run ws (Ok (k, z, r)) (Some mode) 0 fuel)))
     = repeat (get_interval_seconds mode) fuel.
Proof.
  split.
  - intros HN Hfuel. rewrite run_repeat by auto.
    replace (N - 1) with (Z.of_nat (Z.to_nat (N - 1))) at 1 by lia.
    rewrite scheduler_run_bounded by (auto; lia).
    cbn [fst]. now rewrite delays_app, main_no_delays, later_cycles_delays.
  - rewrite run_repeat by auto.
    unfold schedule_next. cbn [Z.eqb negb andb runs_left queue invoked app].
    rewrite scheduler_run_unbounded by auto.
    cbn [fst]. now rewrite delays_app, main_no_delays, later_cycles_delays.
Qed.

Lemma run_waits_between_cycles_witness :
  delays (fst (fst (run (fun _ => world_stale_dns)
                        (Ok ("token", "zone1", "host.example.com"))
                        (Some "weekly") 3 7)))
  = [0; 0].
Proof.
  refine (proj1 (run_waits_between_cycles
                   (fun _ => world_stale_dns) "token" "zone1" "host.example.com"
                   "weekly" 3 7 _ _ _ _ (fun _ => eq_refl)) _ _);
    try discriminate; try reflexivity.
  vm_compute. lia.
Defined.

Lemma run_and_reschedule_raises (ws : nat -> world) (k z r mode : string)
      (num_runs : Z) (st : sched_state) (e : exn) :
  snd (main (ws (invoked st)) k z r) = Raise e ->
  run_and_reschedule ws k z r mode num_runs st
  = (fst (main (ws (invoked st)) k z r), Raise e).
Proof.
  unfold run_and_reschedule. intros H.
  destruct (main (ws (invoked st)) k z r) as [t res]; simpl in *. now subst res.
Qed.

(** With an event waiting and enough runs left to reach it, the cycle that
    raises ends [scheduler.run()]. *)
Lemma scheduler_run_raises (ws : nat -> world) (k z r mode : string) (num_runs : Z)
      (e : exn) :
  forall (j fuel : nat) (left : Z) (c : nat),
    (j < fuel)%nat ->
    num_runs = 0 \/ Z.of_nat j < left ->
    (forall i, (i < j)%nat -> snd (main (ws (c + i)%nat) k z r) = Ok tt) ->
    snd (main (ws (c + j)%nat) k z r) = Raise e ->
    exists t st,
      scheduler_run ws k z r mode num_runs fuel
        (mk_sched_state left [get_interval_seconds mode] c)
      = (t, Raised e, st)
      /\ invoked st = S (c + j).
Proof.
  induction j as [|j IH]; intros fuel left c Hfuel Hleft Hok Hraise;
    (destruct fuel as [|fuel]; [lia|]);
    cbn [scheduler_run queue runs_left invoked].
  - rewrite Nat.add_0_r in Hraise.
    rewrite (run_and_reschedule_raises ws k z r mode num_runs _ e) by exact Hraise.
    do 2 eexists. split; [reflexivity|]. cbn [invoked]. now rewrite Nat.add_0_r.
  - rewrite run_and_reschedule_returns
      by (cbn [invoked]; rewrite <- (Nat.add_0_r c); apply Hok; lia).
    cbn [runs_left queue invoked].
    replace ((num_runs =? 0) || (left >? 0)) with true.
    2:{ symmetry. apply orb_true_iff. destruct Hleft as [->|H]; [now left|].
        right. apply Z.gtb_lt. lia. }
    unfold schedule_next. cbn [runs_left queue invoked].
    replace (negb (num_runs =? 0) && (left - 1 <=? 0)) with false.
    2:{ symmetry. apply andb_false_iff. destruct Hleft as [->|H]; [now left|].
        right. apply Z.leb_gt. lia. }
    cbn [app].
    destruct (IH fuel (left - 1) (S c)) as (t & st & E & Hinv).
    + lia.
    + destruct Hleft as [->|H]; [now left | right; lia].
    + intros i Hi. replace (S c + i)%nat with (c + S i)%nat by lia. apply Hok. lia.
    + replace (S c + j)%nat with (c + S j)%nat by lia. exact Hraise.
    + rewrite E. do 2 eexists. split; [reflexivity|]. rewrite Hinv. lia.
Qed.

(** X19: an exception in a scheduled cycle ends [run] there.  When the
    cycles up to number [j] return and cycle [j + 1], which the run count
    reaches, raises, [run] ends with that exception after these [j + 2]
    cycles; the cycles left in the run count are not made. *)
Theorem run_ends_at_raising_cycle (ws : nat -> world) (k z r mode : string)
        (N : Z) (j fuel : nat) (e : exn)
        (Hk : k <> "") (Hz : z <> "") (Hr : r <> "") (Hmode : mode <> "")
        (Hbudget : N = 0 \/ Z.of_nat (S j) < N)
        (Hfuel : (j < fuel)%nat)
        (Hok : forall i, (i <= j)%nat -> snd (main (ws i) k z r) = Ok tt)
        (Hraise : snd (main (ws (S j)) k z r) = Raise e) :
  snd (fst (run ws (Ok (k, z, r)) (Some mode) N fuel)) = Raised e
  /\ snd (run ws (Ok (k, z, r)) (Some mode) N fuel) = S (S j).
Proof.
  rewrite run_repeat by (auto; apply Hok; lia).
  unfold schedule_next. cbn [runs_left queue invoked].
  replace (negb (N =? 0) && (N - 1 <=? 0)) with false.
  2:{ symmetry. apply andb_false_iff. destruct Hbudget as [->|H]; [now left|].
      right. apply Z.leb_gt. lia. }
  cbn [app].
  destruct (scheduler_run_raises ws k z r mode N e j fuel (N - 1) 1)
    as (t & st & E & Hinv).
  - exact Hfuel.
  - destruct Hbudget as [->|H]; [now left | right; lia].
  - intros i Hi. apply Hok. lia.
  - exact Hraise.
  - rewrite E. cbn [fst snd]. split; [reflexivity | exact Hinv].
Qed.

Lemma run_ends_at_raising_cycle_witness :
  snd (run worlds_third_raises (Ok ("token", "zone1", "host.example.com"))
           (Some "hourly") 5 10)
  = 3%nat.
Proof.
  refine (proj2 (run_ends_at_raising_cycle
                   worlds_third_raises "token" "zone1" "host.example.com" "hourly"
                   5 1 10 OSError _ _ _ _ _ _ _ _));
    try discriminate; try (right; reflexivity); try reflexivity.
  - vm_compute. lia.
  - intros [|[|i]] Hi; [reflexivity | reflexivity | lia].
Defined.

(** ** The secrets *)



(** X21: when [get_secrets] returns, the token was there, the vault was
    called four times, to authenticate with the token and to resolve the
    credential, the zone id and the hostname references in this order, and
    the three values returned are the API key, the zone id and the record
    name that the vault gave for them. *)
Theorem get_secrets_returns_what_the_vault_gave (token : option string) (v : vault)
        (t : list vault_event) (CF_API_KEY CF_ZONE_ID CF_DNS_RECORD : string)
        (Hget : get_secrets token v = (t, Secrets CF_API_KEY CF_ZONE_ID CF_DNS_RECORD)) :
  exists tok,
    token = Some tok /\ tok <> ""
    /\ t = [ Authenticate tok "cfupdater" "1.0";
             ResolveSecret "op://Services/CF DNS API/credential";
             ResolveSecret "op://Services/CF DNS API/zone_id";
             ResolveSecret "op://Services/CF DNS API/hostname" ]
    /\ authenticate v tok "cfupdater" "1.0" = Ok tt
    /\ resolve v "op://Services/CF DNS API/credential" = Ok CF_API_KEY
    /\ resolve v "op://Services/CF DNS API/zone_id" = Ok CF_ZONE_ID
    /\ resolve v "op://Services/CF DNS API/hostname" = Ok CF_DNS_RECORD.
Proof.
  unfold get_secrets in Hget.
  destruct token as [tok|]; [|discriminate].
  destruct (truthy (PStr tok)) eqn:Et; [|discriminate]. cbn [negb] in Hget.
  destruct (authenticate v tok "cfupdater" "1.0") as [[]|e] eqn:Ea; [|discriminate].
  fold CF_API_KEY_REF CF_ZONE_ID_REF CF_HOST_REF.
  destruct (resolve v CF_API_KEY_REF) as [a|e] eqn:E1; [|discriminate].
  destruct (resolve v CF_ZONE_ID_REF) as [b|e] eqn:E2; [|discriminate].
  destruct (resolve v CF_HOST_REF) as [c|e] eqn:E3; [|discriminate].
  injection Hget as <- <- <- <-.
  exists tok. repeat split; auto.
  intros ->. discriminate Et.
Qed.

Lemma get_secrets_returns_what_the_vault_gave_witness :
  exists tok, Some "ops_token" = Some tok /\ tok <> "".
Proof.
  destruct (get_secrets_returns_what_the_vault_gave (Some "ops_token") the_vault
              _ "token" "zone1" "host.example.com" eq_refl)
    as (tok & H1 & H2 & _).
  exists tok. split; assumption.
Defined.

(** X22: an exception of the vault ends [get_secrets] at the call that
    raised it: after a failed authentication no secret is asked for, and
    after a failed resolution the remaining references are not resolved.
    [run] then logs the exception as fatal and makes no cycle. *)
Theorem vault_exception_stops_run (tok : string) (v : vault) (ws : nat -> world)
        (mode : option string) (num_runs : Z) (fuel : nat) (e : exn)
        (Htok : tok <> "") :
  (authenticate v tok "cfupdater" "1.0" = Raise e ->
   vault_calls (fst (get_secrets (Some tok) v)) = [Authenticate tok "cfupdater" "1.0"])
  /\ (authenticate v tok "cfupdater" "1.0" = Ok tt ->
      resolve v CF_API_KEY_REF = Raise e ->
      vault_calls (fst (get_secrets (Some tok) v))
      = [Authenticate tok "cfupdater" "1.0"; ResolveSecret CF_API_KEY_REF])
  /\ (forall t, get_secrets (Some tok) v = (t, VaultRaised e) ->
      snd (run_from_env (Some tok) v ws mode num_runs fuel)
      = ([Log FATAL [Lit "Getting secrets raised Exception "; ExcStr e]],
         Returned, O)).
Proof.
  assert (truthy (PStr tok) = true) as Et by now apply truthy_nonempty.
  repeat split.
  - intros Ha. unfold get_secrets. now rewrite Et, Ha.
  - intros Ha Hr. unfold get_secrets. now rewrite Et, Ha, Hr.
  - intros t Hget. unfold run_from_env. now rewrite Hget.
Qed.

Lemma vault_exception_stops_run_witness :
  vault_calls (fst (get_secrets (Some "ops_token")
                                (mk_vault (fun _ _ _ => Raise RequestException)
                                          (fun _ => Ok "x"))))
  = [Authenticate "ops_token" "cfupdater" "1.0"].
Proof.
  refine (proj1 (vault_exception_stops_run
                   "ops_token"
                   (mk_vault (fun _ _ _ => Raise RequestException) (fun _ => Ok "x"))
                   (fun _ => world_stale_dns) None 1 0 RequestException _) eq_refl).
  discriminate.
Defined.

(** ** The cycle, end to end *)

(** X23: with an IP, when the first matching A record of the lookup has a
    true id, the cycle's upsert is the update (PUT) of that record with the
    discovered address; no create is sent. *)
Theorem cycle_updates_first_match (w : world) (k z r : string) (ip : pyval)
        (resp : response) (items first : list (string * pyval))
        (before after : list pyval)
        (Hip : snd (get_my_ip w (updater_of k z r)) = Ok ip)
        (Hsome : truthy ip = true)
        (Hreq : session_request w (lookup_request (updater_of k z r)) = Ok resp)
        (Hstatus : status_code resp = 200)
        (Hjson : json resp = Ok (PDict items))
        (Hsuccess : truthy (dict_get items "success" PNone) = true)
        (Hresult : dict_get items "result" (PList [])
                   = PList (before ++ PDict first :: after))
        (Hbefore : Forall (fun x => is_dict x = true
                                    /\ record_matches (updater_of k z r) x = false)
                          before)
        (Hmatch : record_matches (updater_of k z r) (PDict first) = true)
        (Hid : truthy (dict_get first "id" PNone) = true) :
  requests (fst (main w k z r))
  = [ ip_request (updater_of k z r); lookup_request (updater_of k z r);
      mk_request PUT
        [ Lit "https://api.cloudflare.com/client/v4/zones/"; Val (PStr z);
          Lit "/dns_records/"; Val (dict_get first "id" PNone) ]
        (self_headers (updater_of k z r)) []
        (Some (PDict [ ("type", PStr "A"); ("name", PStr r); ("content", ip);
                       ("ttl", PInt 1); ("proxied", PBool false) ]))
        30 ].
Proof.
  assert (snd (find_dns_record_id w (updater_of k z r))
          = Ok (dict_get first "id" PNone)) as Hfind.
  { rewrite (find_dns_record_id_success w _ resp items _ Hreq Hstatus Hjson
               Hsuccess Hresult).
    rewrite (find_loop_first_match _ before after first Hbefore Hmatch).
    destruct before; reflexivity. }
  rewrite (main_requests_with_ip w k z r ip _ Hip Hsome Hfind).
  now rewrite Hid.
Qed.

Lemma cycle_updates_first_match_witness :
  map meth (requests (fst (main (world_of meta_ok (Ok lookup_many_response) upsert_ok
                                          (Ok "203.0.113.7"))
                                "token" "zone1" "host.example.com")))
  = [GET; GET; PUT].
Proof.
  rewrite (cycle_updates_first_match
             (world_of meta_ok (Ok lookup_many_response) upsert_ok (Ok "203.0.113.7"))
             "token" "zone1" "host.example.com" (PStr "203.0.113.7")
             lookup_many_response
             [("success", PBool true); ("errors", PList []);
              ("result", PList records_many)]
             [("id", PStr "X"); ("type", PStr "A"); ("name", PStr "host.example.com");
              ("content", PStr "198.51.100.4")]
             [txt_record; a_record "O" "other.example.com"]
             [a_record "Y" "host.example.com"]);
    try reflexivity.
  repeat constructor.
Defined.

(** X24: with an IP, when the lookup succeeds and none of its records is
    an A record with the configured name (or there is none), the cycle's
    upsert is the create (POST) of the record with the discovered address. *)
Theorem cycle_creates_when_not_found (w : world) (k z r : string) (ip : pyval)
        (resp : response) (items : list (string * pyval)) (records : list pyval)
        (Hip : snd (get_my_ip w (updater_of k z r)) = Ok ip)
        (Hsome : truthy ip = true)
        (Hreq : session_request w (lookup_request (updater_of k z r)) = Ok resp)
        (Hstatus : status_code resp = 200)
        (Hjson : json resp = Ok (PDict items))
        (Hsuccess : truthy (dict_get items "success" PNone) = true)
        (Hresult : dict_get items "result" (PList []) = PList records)
        (Hnone : Forall (fun x => is_dict x = true
                                  /\ record_matches (updater_of k z r) x = false)
                        records) :
  requests (fst (main w k z r))
  = [ ip_request (updater_of k z r); lookup_request (updater_of k z r);
      mk_request POST
        [ Lit "https://api.cloudflare.com/client/v4/zones/"; Val (PStr z);
          Lit "/dns_records" ]
        (self_headers (updater_of k z r)) []
        (Some (PDict [ ("type", PStr "A"); ("name", PStr r); ("content", ip);
                       ("ttl", PInt 1); ("proxied", PBool false) ]))
        30 ].
Proof.
  assert (snd (find_dns_record_id w (updater_of k z r)) = Ok PNone) as Hfind.
  { rewrite (find_dns_record_id_success w _ resp items _ Hreq Hstatus Hjson
               Hsuccess Hresult).
    rewrite (find_loop_no_match _ _ Hnone).
    destruct records; reflexivity. }
  now rewrite (main_requests_with_ip w k z r ip _ Hip Hsome Hfind).
Qed.

Lemma cycle_creates_when_not_found_witness :
  map meth (requests
              (fst (main (world_of meta_ok
                            (Ok (mk_response 200
                                   (Ok (envelope true (PList [txt_record]) (PList [])))))
                            upsert_ok (Ok "203.0.113.7"))
                         "token" "zone1" "host.example.com")))
  = [GET; GET; POST].
Proof.
  rewrite (cycle_creates_when_not_found
             (world_of meta_ok
                (Ok (mk_response 200
                       (Ok (envelope true (PList [txt_record]) (PList [])))))
                upsert_ok (Ok "203.0.113.7"))
             "token" "zone1" "host.example.com" (PStr "203.0.113.7")
             (mk_response 200 (Ok (envelope true (PList [txt_record]) (PList []))))
             [("success", PBool true); ("errors", PList []);
              ("result", PList [txt_record])]
             [txt_record]);
    try reflexivity.
  repeat constructor.
Defined.

(** A cycle returns, or the resolver raised something other than a
    [socket.gaierror] in the propagation check of a successful upsert. *)
Lemma main_returns_or_check_raised (w : world) (k z r : string) :
  snd (main w k z r) = Ok tt
  \/ exists e ip rid,
       snd (main w k z r) = Raise e
       /\ snd (get_my_ip w (updater_of k z r)) = Ok ip /\ truthy ip = true
       /\ snd (find_dns_record_id w (updater_of k z r)) = Ok rid
       /\ snd (upsert_of w (updater_of k z r) ip rid) = Ok true
       /\ gethostbyname w r = Raise e /\ is_gaierror e = false.
Proof.
  destruct (main_cases w k z r) as (ip & rid & b & Hip & Hrid & Hb).
  destruct (truthy ip) eqn:Et.
  - rewrite (main_with_ip w k z r ip rid b Hip Et Hrid Hb). cbn [snd].
    destruct b; [|now left].
    rewrite verify_dns_update_outcome. cbn [record_name updater_of].
    destruct (gethostbyname w r) as [a|e] eqn:Eg; [now left|].
    destruct (is_gaierror e) eqn:Ee; [now left|].
    right. exists e, ip, rid. repeat split; auto.
  - rewrite (main_without_ip w k z r ip Hip Et). now left.
Qed.

(** X25: a cycle raises in one situation only: the IP was found, the
    upsert succeeded, and in the propagation check the resolver raised an
    exception that is not a [socket.gaierror]; the cycle raises that
    exception.  A failure of the IP query, of the lookup or of the upsert
    never makes the cycle raise. *)
Theorem cycle_raises_only_from_the_check (w : world) (k z r : string) (e : exn) :
  snd (main w k z r) = Raise e
  <-> exists ip rid,
        snd (get_my_ip w (updater_of k z r)) = Ok ip /\ truthy ip = true
        /\ snd (find_dns_record_id w (updater_of k z r)) = Ok rid
        /\ snd (upsert_of w (updater_of k z r) ip rid) = Ok true
        /\ gethostbyname w r = Raise e /\ is_gaierror e = false.
Proof.
  split.
  - intros Hraise.
    destruct (main_returns_or_check_raised w k z r)
      as [Hok | (e' & ip & rid & He & Hip & Et & Hrid & Hb & Hg & Hn)];
      [congruence|].
    assert (e' = e) as -> by congruence.
    exists ip, rid. repeat split; assumption.
  - intros (ip & rid & Hip & Et & Hrid & Hb & Hg & Hn).
    rewrite (main_with_ip w k z r ip rid true Hip Et Hrid Hb). cbn [snd].
    rewrite verify_dns_update_outcome. cbn [record_name updater_of].
    now rewrite Hg, Hn.
Qed.

(** X26: failures of the IP query, the lookup and the upsert, and
    [socket.gaierror]s of the resolver, do not stop the schedule: when the
    resolver raises nothing else, [run] under a repeat mode with a run count
    [N > 0] makes its [N] cycles and returns, whatever the session answers
    in each of them. *)
Theorem run_survives_failed_cycles (ws : nat -> world) (k z r mode : string)
        (N : Z) (fuel : nat)
        (Hk : k <> "") (Hz : z <> "") (Hr : r <> "") (Hmode : mode <> "")
        (HN : N > 0) (Hfuel : (Z.to_nat (N - 1) <= fuel)%nat)
        (Hdns : forall i e, gethostbyname (ws i) r = Raise e -> is_gaierror e = true) :
  snd (fst (run ws (Ok (k, z, r)) (Some mode) N fuel)) = Returned
  /\ snd (run ws (Ok (k, z, r)) (Some mode) N fuel) = Z.to_nat N.
Proof.
  assert (forall i, snd (main (ws i) k z r) = Ok tt) as Hmain.
  { intros i.
    destruct (main_returns_or_check_raised (ws i) k z r)
      as [Hok | (e & ip & rid & _ & _ & _ & _ & _ & Hg & Hn)]; [exact Hok|].
    rewrite (Hdns i e Hg) in Hn. discriminate. }
  rewrite run_repeat by auto.
  replace (schedule_next mode N (mk_sched_state (N - 1) [] 1))
    with (schedule_next mode N (mk_sched_state (Z.of_nat (Z.to_nat (N - 1))) [] 1))
    by (do 2 f_equal; lia).
  rewrite scheduler_run_bounded by (auto; lia).
  cbn [fst snd invoked]. split; [reflexivity | lia].
Qed.

Lemma run_survives_failed_cycles_witness :
  snd (run (fun _ => world_of (Raise RequestException) (Raise RequestException)
                              (Raise RequestException) (Raise gaierror))
           (Ok ("token", "zone1", "host.example.com")) (Some "min") 4 3)
  = 4%nat.
Proof.
  refine (proj2 (run_survives_failed_cycles
                   (fun _ => world_of (Raise RequestException) (Raise RequestException)
                                      (Raise RequestException) (Raise gaierror))
                   "token" "zone1" "host.example.com" "min" 4 3 _ _ _ _ _ _ _));
    try discriminate; try reflexivity.
  intros i e H. injection H as <-. reflexivity.
Defined.
